(** * Rice Monitor API: a shallow embedding of the Go backend

    The backend is a set of gin handlers over a Firestore document store and
    a Cloud Storage bucket, guarded by a JWT middleware.  Handlers are
    embedded as pure functions that take the request, the values the
    environment supplies (clock readings of [time.Now()], identifiers drawn
    by [utils.GenerateID]) and the store, and return the response together
    with the store afterwards.

    The managed services are outside the repository.  They are modelled by
    their contracts: a collection is a finite map from document ids to
    documents, a document is a finite map from field names to values, and the
    services are reliable (a read fails only on an absent document, an update
    only on an absent document or on a list of writes the client refuses;
    writes and deletes go through). *)

From Stdlib Require Import ZArith String Ascii List Lia Permutation.
From stdpp Require Import gmap strings list fin_maps.
Import ListNotations.

Local Open Scope string_scope.
Local Open Scope Z_scope.
Set Warnings "-register-all".

(** ** Go strings: byte sequences with checked slicing *)

Module gostrings.

(** [s[:n]]: a slice expression panics when [n > len(s)]; [None] is the
    panic. *)
Definition slice_to (s : string) (n : nat) : option string :=
  if decide (n ≤ String.length s)%nat then Some (substring 0 n s) else None.

(** [strip p s] is [Some t] exactly when [s = p ++ t]. *)
Fixpoint strip (p s : string) : option string :=
  match p, s with
  | EmptyString, _ => Some s
  | String a p', String b s' =>
      if decide (a = b) then strip p' s' else None
  | String _ _, EmptyString => None
  end.

Definition HasPrefix (s p : string) : bool :=
  match strip p s with Some _ => true | None => false end.

(** [strings.TrimPrefix]: [s] without the leading [p], or [s] itself. *)
Definition TrimPrefix (s p : string) : string :=
  match strip p s with Some t => t | None => s end.

(** [len(s) >= len(x) && s[len(s)-len(x):] == x] *)
Definition HasSuffix (s x : string) : bool :=
  bool_decide (String.length x ≤ String.length s)%nat
  && bool_decide
       (substring (String.length s - String.length x) (String.length x) s = x).

(** [strings.Join] *)
Fixpoint Join (l : list string) (sep : string) : string :=
  match l with
  | [] => ""
  | [x] => x
  | x :: r => x +:+ sep +:+ Join r sep
  end.

(** The fields of [s] between occurrences of the byte [c]
    ([strings.Split] with a one-byte separator). *)
Fixpoint Split (s : string) (c : ascii) : list string :=
  match s with
  | EmptyString => [""]
  | String a r =>
      if decide (a = c) then "" :: Split r c
      else match Split r c with
           | [] => [String a ""]
           | x :: xs => String a x :: xs
           end
  end.

End gostrings.

(** ** Package [fmt]: [Sprintf] restricted to the [%s] verb on strings *)

Module fmt.

(** The operands are consumed left to right.  A [%s] with no operand left
    prints [%!s(MISSING)]; operands left over at the end are reported as
    [%!(EXTRA string=..)], as package [fmt] documents. *)
Fixpoint extra (args : list string) : string :=
  match args with
  | [] => ""
  | [a] => "string=" +:+ a
  | a :: r => "string=" +:+ a +:+ ", " +:+ extra r
  end.

Fixpoint Sprintf (format : string) (args : list string) : string :=
  match format with
  | EmptyString =>
      match args with
      | [] => ""
      | _ => "%!(EXTRA " +:+ extra args +:+ ")"
      end
  | String "%" (String "s" rest) =>
      match args with
      | a :: args' => a +:+ Sprintf rest args'
      | [] => "%!s(MISSING)" +:+ Sprintf rest []
      end
  | String c rest => String c (Sprintf rest args)
  end.

End fmt.

(** ** Package [time]: instants as nanoseconds since the Unix epoch (UTC) *)

Module time.

Definition Time : Type := Z.
Definition Duration : Type := Z.

Definition Second : Duration := 1000000000.
Definition Hour : Duration := 3600 * Second.

(** The zero [Time]: January 1, year 1, 00:00:00 UTC. *)
Definition zero : Time := -62135596800 * Second.

Definition Add (t : Time) (d : Duration) : Time := t + d.
Definition Before (t u : Time) : bool := bool_decide (t < u).
Definition After (t u : Time) : bool := bool_decide (u < t).
Definition Equal (t u : Time) : bool := bool_decide (t = u).

(** [t.Truncate(d)]: round down to a multiple of [d]. *)
Definition Truncate (t : Time) (d : Duration) : Time := t - t mod d.

Definition Unix (t : Time) : Z := t / Second.

(** Calendar date of a day count since 1970-01-01 (proleptic Gregorian). *)
Definition civil (days : Z) : Z * Z * Z :=
  let z := days + 719468 in
  let era := z / 146097 in
  let doe := z mod 146097 in
  let yoe := (doe - doe / 1460 + doe / 36524 - doe / 146096) / 365 in
  let doy := doe - (365 * yoe + yoe / 4 - yoe / 100) in
  let mp := (5 * doy + 2) / 153 in
  let d := doy - (153 * mp + 2) / 5 + 1 in
  let m := if decide (mp < 10) then mp + 3 else mp - 9 in
  let y := yoe + era * 400 + (if decide (m ≤ 2) then 1 else 0) in
  (y, m, d).

Definition digit (n : Z) : ascii := ascii_of_nat (48 + Z.to_nat (n mod 10)).

(** The last [w] decimal digits of [n], zero padded. *)
Fixpoint digits (w : nat) (n : Z) : string :=
  match w with
  | O => ""
  | S w' => digits w' (n / 10) +:+ String (digit n) ""
  end.

(** [t.Format("2006-01-02")] *)
Definition Format_date (t : Time) : string :=
  let '(y, m, d) := civil (Unix t / 86400) in
  digits 4 y +:+ "-" +:+ digits 2 m +:+ "-" +:+ digits 2 d.

(** [t.Format("20060102_150405")] *)
Definition Format_stamp (t : Time) : string :=
  let '(y, m, d) := civil (Unix t / 86400) in
  let s := Unix t mod 86400 in
  digits 4 y +:+ digits 2 m +:+ digits 2 d +:+ "_"
  +:+ digits 2 (s / 3600) +:+ digits 2 (s / 60 mod 60) +:+ digits 2 (s mod 60).

End time.

(** ** The document store (Cloud Firestore), by contract *)

Module firestore.

(** A field value: what Go holds in an [interface{}] that came from JSON or
    from a document.  A [float64] is carried as its IEEE-754 bit pattern. *)
Inductive Any : Type :=
| VNull
| VBool (b : bool)
| VInt (n : Z)
| VFloat (bits : Z)
| VString (s : string)
| VTime (t : time.Time)
| VArray (l : list Any)
| VMap (m : list (string * Any)).

Abbreviation Doc := (gmap string Any).
Abbreviation Collection := (gmap string (gmap string Any)).

(** Results are Go's [(value, err)]: [inl] the value, [inr] the error. *)
Inductive error : Type :=
| NotFound
| RepeatedPath.

(** [firestore.Update{Path, Value}]: one field-level write. *)
Record Update : Type := { Path : string; Value : Any }.

(** [DocumentRef.Get] *)
Definition DocGet (c : Collection) (id : string) : Doc + error :=
  match c !! id with
  | Some d => inl d
  | None => inr NotFound
  end.

(** [DocumentRef.Set]: create or replace the whole document. *)
Definition DocSet (c : Collection) (id : string) (d : Doc) : Collection :=
  <[id := d]> c.

(** The field writes of one update, applied in order to a document.  Every
    path the handlers send is taken as the name of a top-level field. *)
Definition apply_updates (d : Doc) (updates : list Update) : Doc :=
  foldl (fun acc u => <[Path u := Value u]> acc) d updates.

(** Whether some field path occurs twice among the paths of an update. *)
Fixpoint repeats (paths : list string) : bool :=
  match paths with
  | [] => false
  | p :: r => bool_decide (p ∈ r) || repeats r
  end.

(** [DocumentRef.Update].  The client checks the field paths before it
    sends anything: one update may not name the same field path twice (the
    client's error reads "field path .. cannot be used in the same update
    as ..").  The write then fails on a document that does not exist, and
    otherwise replaces the values at the paths and leaves the other fields
    as they are. *)
Definition DocUpdate (c : Collection) (id : string) (updates : list Update)
  : Collection + error :=
  if repeats (Path <$> updates) then inr RepeatedPath
  else
    match c !! id with
    | Some d => inl (<[id := apply_updates d updates]> c)
    | None => inr NotFound
    end.

(** [DocumentRef.Delete] *)
Definition DocDelete (c : Collection) (id : string) : Collection :=
  delete id c.

(** A query as the handlers build it: equality filters on string fields,
    an optional descending order on a timestamp field, offset and limit. *)
Record Query : Type := {
  source : Collection;
  wheres : list (string * string);
  order_desc : option string;
  offset : Z;
  limit : option Z
}.

Definition CollectionQuery (c : Collection) : Query :=
  {| source := c; wheres := []; order_desc := None; offset := 0; limit := None |}.

Definition Where (q : Query) (path value : string) : Query :=
  {| source := source q; wheres := wheres q ++ [(path, value)];
     order_desc := order_desc q; offset := offset q; limit := limit q |}.

Definition OrderByDesc (q : Query) (path : string) : Query :=
  {| source := source q; wheres := wheres q;
     order_desc := Some path; offset := offset q; limit := limit q |}.

Definition Offset (q : Query) (n : Z) : Query :=
  {| source := source q; wheres := wheres q;
     order_desc := order_desc q; offset := n; limit := limit q |}.

Definition Limit (q : Query) (n : Z) : Query :=
  {| source := source q; wheres := wheres q;
     order_desc := order_desc q; offset := offset q; limit := Some n |}.

Definition field_is (d : Doc) (w : string * string) : bool :=
  match d !! w.1 with
  | Some (VString s) => bool_decide (s = w.2)
  | _ => false
  end.

Definition matches (ws : list (string * string)) (d : Doc) : bool :=
  forallb (field_is d) ws.

Definition time_field (path : string) (d : Doc) : option time.Time :=
  match d !! path with
  | Some (VTime t) => Some t
  | _ => None
  end.

(** Insertion of a document into a list sorted by decreasing key. *)
Fixpoint insert_desc (x : time.Time * Doc) (l : list (time.Time * Doc))
  : list (time.Time * Doc) :=
  match l with
  | [] => [x]
  | y :: r => if decide (y.1 < x.1) then x :: l else y :: insert_desc x r
  end.

Definition sort_desc (l : list (time.Time * Doc)) : list (time.Time * Doc) :=
  foldr insert_desc [] l.

(** An ordered query returns only the documents that have the order field. *)
Definition ordered (o : option string) (docs : list Doc) : list Doc :=
  match o with
  | None => docs
  | Some path =>
      (sort_desc (omap (fun d => (fun t => (t, d)) <$> time_field path d) docs)).*2
  end.

(** [Query.Documents(ctx).GetAll()] *)
Definition GetAll (q : Query) : list Doc :=
  let docs := filter (fun d => matches (wheres q) d = true)
                     (map_to_list (source q)).*2 in
  let docs := drop (Z.to_nat (offset q)) (ordered (order_desc q) docs) in
  match limit q with
  | Some n => take (Z.to_nat n) docs
  | None => docs
  end.

End firestore.

(** ** Package [models] *)

Module models.
Import firestore.

Record User : Type := {
  User_ID : string;
  User_Email : string;
  User_Name : string;
  User_Picture : string;
  User_Role : string;
  User_CreatedAt : time.Time;
  User_UpdatedAt : time.Time;
  User_LastLoginAt : time.Time
}.

Record Location : Type := { Latitude : Z; Longitude : Z }.

Record Field : Type := {
  Field_ID : string;
  Field_Name : string;
  Field_Location : string;
  Field_RiceVariety : string;
  Field_TentativeDate : string;
  Field_Coordinates : Location;
  Field_Area : Z;
  Field_OwnerID : string;
  Field_CreatedAt : time.Time;
  Field_UpdatedAt : time.Time
}.

Record TraitMeasurements : Type := {
  CulmLength : Z;
  PanicleLength : Z;
  PaniclesPerHill : Z;
  HillsObserved : Z
}.

Record Submission : Type := {
  ID : string;
  UserID : string;
  FieldID : string;
  Date : time.Time;
  GrowthStage : string;
  PlantConditions : list string;
  Traits : TraitMeasurements;
  Notes : string;
  ObserverName : string;
  Images : list string;
  Status : string;
  CreatedAt : time.Time;
  UpdatedAt : time.Time
}.

Record CreateSubmissionRequest : Type := {
  Req_FieldID : string;
  Req_Date : time.Time;
  Req_GrowthStage : string;
  Req_PlantConditions : list string;
  Req_Traits : TraitMeasurements;
  Req_Notes : string;
  Req_ObserverName : string;
  Req_Images : list string
}.

Record SubmissionResponse : Type := {
  Resp_Submission : Submission;
  Resp_Field : Field
}.

(** [jwt.RegisteredClaims], the two dates the token service sets. *)
Record RegisteredClaims : Type := {
  ExpiresAt : option time.Time;
  IssuedAt : option time.Time
}.

Record Claims : Type := {
  Claims_UserID : string;
  Claims_Email : string;
  Claims_Role : string;
  Registered : RegisteredClaims
}.

Record GoogleUserInfo : Type := {
  Info_Email : string;
  Info_Name : string;
  Info_Picture : string
}.

Record ErrorResponse : Type := { Error : string; Message : string }.

(** *** Documents of the structs, by their [firestore:".."] tags *)

Definition strings_value (l : list string) : Any := VArray (VString <$> l).

Definition get_string (d : Doc) (k : string) : string :=
  match d !! k with Some (VString s) => s | _ => "" end.

Definition get_time (d : Doc) (k : string) : time.Time :=
  match d !! k with Some (VTime t) => t | _ => time.zero end.

Definition get_float (d : Doc) (k : string) : Z :=
  match d !! k with Some (VFloat b) => b | _ => 0 end.

Definition as_string (v : Any) : option string :=
  match v with VString s => Some s | _ => None end.

Definition get_strings (d : Doc) (k : string) : list string :=
  match d !! k with Some (VArray l) => omap as_string l | _ => [] end.

Fixpoint assoc (m : list (string * Any)) (k : string) : option Any :=
  match m with
  | [] => None
  | (k', v) :: r => if decide (k' = k) then Some v else assoc r k
  end.

Definition Traits_value (t : TraitMeasurements) : Any :=
  VMap [("culm_length", VFloat (CulmLength t));
        ("panicle_length", VFloat (PanicleLength t));
        ("panicles_per_hill", VInt (PaniclesPerHill t));
        ("hills_observed", VInt (HillsObserved t))].

Definition Traits_of_value (v : option Any) : TraitMeasurements :=
  match v with
  | Some (VMap m) =>
      {| CulmLength := match assoc m "culm_length" with Some (VFloat b) => b | _ => 0 end;
         PanicleLength := match assoc m "panicle_length" with Some (VFloat b) => b | _ => 0 end;
         PaniclesPerHill := match assoc m "panicles_per_hill" with Some (VInt n) => n | _ => 0 end;
         HillsObserved := match assoc m "hills_observed" with Some (VInt n) => n | _ => 0 end |}
  | _ => {| CulmLength := 0; PanicleLength := 0; PaniclesPerHill := 0; HillsObserved := 0 |}
  end.

Definition Location_value (l : Location) : Any :=
  VMap [("latitude", VFloat (Latitude l)); ("longitude", VFloat (Longitude l))].

Definition Location_of_value (v : option Any) : Location :=
  match v with
  | Some (VMap m) =>
      {| Latitude := match assoc m "latitude" with Some (VFloat b) => b | _ => 0 end;
         Longitude := match assoc m "longitude" with Some (VFloat b) => b | _ => 0 end |}
  | _ => {| Latitude := 0; Longitude := 0 |}
  end.

Definition User_doc (u : User) : Doc :=
  list_to_map
    [("id", VString (User_ID u)); ("email", VString (User_Email u));
     ("name", VString (User_Name u)); ("picture", VString (User_Picture u));
     ("role", VString (User_Role u)); ("created_at", VTime (User_CreatedAt u));
     ("updated_at", VTime (User_UpdatedAt u));
     ("last_login_at", VTime (User_LastLoginAt u))].

(** [doc.DataTo(&user)]: a field that is absent or of another type leaves
    the zero value. *)
Definition User_DataTo (d : Doc) : User :=
  {| User_ID := get_string d "id"; User_Email := get_string d "email";
     User_Name := get_string d "name"; User_Picture := get_string d "picture";
     User_Role := get_string d "role"; User_CreatedAt := get_time d "created_at";
     User_UpdatedAt := get_time d "updated_at";
     User_LastLoginAt := get_time d "last_login_at" |}.

Definition Field_doc (f : Field) : Doc :=
  list_to_map
    [("id", VString (Field_ID f)); ("name", VString (Field_Name f));
     ("location", VString (Field_Location f));
     ("rice_variety", VString (Field_RiceVariety f));
     ("tentative_date", VString (Field_TentativeDate f));
     ("coordinates", Location_value (Field_Coordinates f));
     ("area", VFloat (Field_Area f)); ("owner_id", VString (Field_OwnerID f));
     ("created_at", VTime (Field_CreatedAt f));
     ("updated_at", VTime (Field_UpdatedAt f))].

Definition Field_DataTo (d : Doc) : Field :=
  {| Field_ID := get_string d "id"; Field_Name := get_string d "name";
     Field_Location := get_string d "location";
     Field_RiceVariety := get_string d "rice_variety";
     Field_TentativeDate := get_string d "tentative_date";
     Field_Coordinates := Location_of_value (d !! "coordinates");
     Field_Area := get_float d "area"; Field_OwnerID := get_string d "owner_id";
     Field_CreatedAt := get_time d "created_at";
     Field_UpdatedAt := get_time d "updated_at" |}.

Definition Submission_doc (s : Submission) : Doc :=
  list_to_map
    [("id", VString (ID s)); ("user_id", VString (UserID s));
     ("field_id", VString (FieldID s)); ("date", VTime (Date s));
     ("growth_stage", VString (GrowthStage s));
     ("plant_conditions", strings_value (PlantConditions s));
     ("trait_measurements", Traits_value (Traits s));
     ("notes", VString (Notes s)); ("observer_name", VString (ObserverName s));
     ("images", strings_value (Images s)); ("status", VString (Status s));
     ("created_at", VTime (CreatedAt s)); ("updated_at", VTime (UpdatedAt s))].

Definition Submission_DataTo (d : Doc) : Submission :=
  {| ID := get_string d "id"; UserID := get_string d "user_id";
     FieldID := get_string d "field_id"; Date := get_time d "date";
     GrowthStage := get_string d "growth_stage";
     PlantConditions := get_strings d "plant_conditions";
     Traits := Traits_of_value (d !! "trait_measurements");
     Notes := get_string d "notes"; ObserverName := get_string d "observer_name";
     Images := get_strings d "images"; Status := get_string d "status";
     CreatedAt := get_time d "created_at"; UpdatedAt := get_time d "updated_at" |}.

End models.

(** ** Package [jwt] (golang-jwt v4), by contract *)

Module jwt.
Import models.

Inductive SigningMethod : Type :=
| SigningMethodHS256
| SigningMethodHS384
| SigningMethodHS512
| SigningMethodRS256
| SigningMethodNone.

(** Whether the method is one of the HMAC family, which is what the type
    assertion on [token.Method] in the key function tests. *)
Definition is_HMAC (m : SigningMethod) : bool :=
  match m with
  | SigningMethodHS256 | SigningMethodHS384 | SigningMethodHS512 => true
  | _ => false
  end.

(** A token in parsed form: the header's algorithm, the claims and the
    signature segment. *)
Record Token : Type := {
  Method : SigningMethod;
  TokenClaims : Claims;
  Signature : string
}.

(** What the library contributes and the repository does not contain: the
    signature of a signing method over header and claims under a key, and
    the compact serialisation of a token with its parser. *)
Class Library : Type := {
  Sign : SigningMethod -> string -> Claims -> string;
  Encode : Token -> string;
  Decode : string -> option Token
}.

(** [jwt.NewNumericDate]: the instant truncated to [jwt.TimePrecision],
    one second. *)
Definition NewNumericDate (t : time.Time) : option time.Time :=
  Some (time.Truncate t time.Second).

(** [RegisteredClaims.Valid] at the instant [now]: not expired
    ([now] before [exp]) and not used before issued. *)
Definition Valid (c : RegisteredClaims) (now : time.Time) : bool :=
  match ExpiresAt c with Some e => time.Before now e | None => true end
  && match IssuedAt c with
     | Some i => time.After now i || time.Equal now i
     | None => true
     end.

(** [jwt.NewWithClaims(method, claims).SignedString(key)] *)
Definition SignedString `{Library} (m : SigningMethod) (c : Claims) (key : string)
  : string + string :=
  inl (Encode {| Method := m; TokenClaims := c; Signature := Sign m key c |}).

(** [jwt.ParseWithClaims]: parse, ask [keyFunc] for the key, validate the
    claims, verify the signature.  The token comes back only when valid. *)
Definition ParseWithClaims `{Library} (tokenString : string)
    (keyFunc : Token -> string + string) (now : time.Time) : Token + string :=
  match Decode tokenString with
  | None => inr "token contains an invalid number of segments"
  | Some token =>
      match keyFunc token with
      | inr err => inr err
      | inl key =>
          if Valid (Registered (TokenClaims token)) now
             && bool_decide (Sign (Method token) key (TokenClaims token) = Signature token)
          then inl token
          else inr "token is expired or signature is invalid"
      end
  end.

End jwt.

(** ** Package [utils] *)

Module utils.
Import models.

Section TokenService.
Context `{L : jwt.Library}.

(** The package variable [jwtSecret], read from the environment at start. *)
Variable jwtSecret : string.

Definition accessClaims (user : User) (t1 t2 : time.Time) : Claims :=
  {| Claims_UserID := User_ID user;
     Claims_Email := User_Email user;
     Claims_Role := User_Role user;
     Registered :=
       {| ExpiresAt := jwt.NewNumericDate (time.Add t1 time.Hour);
          IssuedAt := jwt.NewNumericDate t2 |} |}.

Definition refreshClaims (user : User) (t3 t4 : time.Time) : Claims :=
  {| Claims_UserID := User_ID user;
     Claims_Email := User_Email user;
     Claims_Role := User_Role user;
     Registered :=
       {| ExpiresAt := jwt.NewNumericDate (time.Add t3 (time.Hour * 24 * 7));
          IssuedAt := jwt.NewNumericDate t4 |} |}.

(** [GenerateTokens]; [t1 .. t4] are its four readings of [time.Now()], in
    program order.  The result is the access token and the refresh token,
    or the error. *)
Definition GenerateTokens (user : User) (t1 t2 t3 t4 : time.Time)
  : (string * string) + string :=
  match jwt.SignedString jwt.SigningMethodHS256 (accessClaims user t1 t2) jwtSecret with
  | inr err => inr err
  | inl accessTokenString =>
      match jwt.SignedString jwt.SigningMethodHS256 (refreshClaims user t3 t4) jwtSecret with
      | inr err => inr err
      | inl refreshTokenString => inl (accessTokenString, refreshTokenString)
      end
  end.

(** The key function [ValidateToken] hands to the parser. *)
Definition keyFunc (token : jwt.Token) : string + string :=
  if jwt.is_HMAC (jwt.Method token) then inl jwtSecret
  else inr "unexpected signing method".

(** [ValidateToken]; [now] is the clock at validation. *)
Definition ValidateToken (tokenString : string) (now : time.Time) : Claims + string :=
  match jwt.ParseWithClaims tokenString keyFunc now with
  | inr err => inr err
  | inl token => inl (jwt.TokenClaims token)
  end.

End TokenService.

Definition allowedTypes : list string := [".jpg"; ".jpeg"; ".png"; ".webp"].

(** [ValidateFileType]: some allowed extension is a suffix of the name. *)
Definition ValidateFileType (filename : string) : bool :=
  existsb (gostrings.HasSuffix filename) allowedTypes.

End utils.

(** ** Package [services]: the handles the handlers share *)

Module services.
Import firestore.

(** The three collections behind [FirestoreService]. *)
Record FirestoreService : Type := {
  Users : Collection;
  Submissions : Collection;
  Fields : Collection
}.

Definition with_Users (fs : FirestoreService) (c : Collection) : FirestoreService :=
  {| Users := c; Submissions := Submissions fs; Fields := Fields fs |}.

Definition with_Submissions (fs : FirestoreService) (c : Collection) : FirestoreService :=
  {| Users := Users fs; Submissions := c; Fields := Fields fs |}.

Definition with_Fields (fs : FirestoreService) (c : Collection) : FirestoreService :=
  {| Users := Users fs; Submissions := Submissions fs; Fields := c |}.

(** The bucket behind [StorageService]: object name to content type and
    bytes. *)
Record StorageService : Type := {
  BucketName : string;
  Objects : gmap string (string * string)
}.

End services.

(** ** Package [gin]: request context and responses *)

Module gin.
Import models firestore.

Inductive Data : Type :=
| NoData
| OneSubmission (s : Submission)
| OneSubmissionResponse (r : SubmissionResponse)
| SubmissionPage (submissions : list Submission) (page limit total : Z)
| SubmissionResponsePage (submissions : list SubmissionResponse) (page limit total : Z)
| OneField (f : Field)
| FieldList (fields : list Field)
| OneUser (u : User)
| Uploaded (filename url : string).

Record SuccessResponse : Type := {
  Success : bool;
  Data_ : Data;
  Message_ : string
}.

Record AuthResponse : Type := {
  Auth_User : User;
  AccessToken : string;
  RefreshToken : string;
  ExpiresIn : Z
}.

Inductive Body : Type :=
| ErrorBody (e : ErrorResponse)
| SuccessBody (s : SuccessResponse)
| AuthBody (a : AuthResponse)
| TextBody (s : string).

Record Response : Type := {
  StatusCode : Z;
  ResponseHeader : list (string * string);
  ResponseBody : Body
}.

(** [c.JSON(code, obj)] *)
Definition JSON (code : Z) (b : Body) : Response :=
  {| StatusCode := code; ResponseHeader := []; ResponseBody := b |}.

Definition fail (code : Z) (kind message : string) : Response :=
  JSON code (ErrorBody {| Error := kind; Message := message |}).

(** A value stored with [c.Set]. *)
Inductive KeyValue : Type :=
| KUser (u : User)
| KString (s : string).

Record FileHeader : Type := {
  Filename : string;
  ContentType : string;
  Content : string
}.

Record Context : Type := {
  RequestHeader : gmap string string;
  Keys : gmap string KeyValue;
  Params : gmap string string;
  QueryValues : gmap string string;
  PostFormValues : gmap string string;
  FormFiles : gmap string FileHeader;
  JSONBody : option (gmap string Any)
}.

(** [c.GetHeader], [c.Param], [c.Query], [c.PostForm]: the empty string
    when absent. *)
Definition GetHeader (c : Context) (k : string) : string :=
  default "" (RequestHeader c !! k).
Definition Param (c : Context) (k : string) : string :=
  default "" (Params c !! k).
Definition Query (c : Context) (k : string) : string :=
  default "" (QueryValues c !! k).
Definition DefaultQuery (c : Context) (k d : string) : string :=
  default d (QueryValues c !! k).
Definition PostForm (c : Context) (k : string) : string :=
  default "" (PostFormValues c !! k).

(** [c.Set(key, value)] *)
Definition Set_ (c : Context) (k : string) (v : KeyValue) : Context :=
  {| RequestHeader := RequestHeader c; Keys := <[k := v]> (Keys c);
     Params := Params c; QueryValues := QueryValues c;
     PostFormValues := PostFormValues c; FormFiles := FormFiles c;
     JSONBody := JSONBody c |}.

(** [c.Get("user")] followed by the type assertion to a user pointer: the
    assertion panics unless the key holds a user, which is [None] here. *)
Definition CurrentUser (c : Context) : option User :=
  match Keys c !! "user" with
  | Some (KUser u) => Some u
  | _ => None
  end.

(** What running a handler ends in: a response, or a panic. *)
Inductive Outcome (S : Type) : Type :=
| Responded (r : Response) (s : S)
| Panicked (s : S).
Arguments Responded {S} _ _.
Arguments Panicked {S} _.

(** What a middleware ends in: the chain aborted with a response, or the
    next handler runs on the context. *)
Inductive Flow : Type :=
| Abort (r : Response)
| Next (c : Context).

End gin.

Module http.
Definition StatusOK : Z := 200.
Definition StatusCreated : Z := 201.
Definition StatusBadRequest : Z := 400.
Definition StatusUnauthorized : Z := 401.
Definition StatusForbidden : Z := 403.
Definition StatusNotFound : Z := 404.
Definition StatusInternalServerError : Z := 500.
End http.

(** ** Package [middleware] *)

Module middleware.
Import models firestore services gin.

Section AuthMiddleware.
Context `{L : jwt.Library}.
Variable jwtSecret : string.

Definition getUserByID (fs : FirestoreService) (userID : string) : User + error :=
  match DocGet (Users fs) userID with
  | inr err => inr err
  | inl doc => inl (User_DataTo doc)
  end.

(** [RequireAuth]; [now] is the clock when the token is validated. *)
Definition RequireAuth (fs : FirestoreService) (now : time.Time) (c : Context) : Flow :=
  let authHeader := GetHeader c "Authorization" in
  if decide (authHeader = "") then
    Abort (fail http.StatusUnauthorized "unauthorized" "Authorization header required")
  else
    let tokenString := gostrings.TrimPrefix authHeader "Bearer " in
    if decide (tokenString = authHeader) then
      Abort (fail http.StatusUnauthorized "unauthorized" "Bearer token required")
    else
      match utils.ValidateToken jwtSecret tokenString now with
      | inr _ => Abort (fail http.StatusUnauthorized "unauthorized" "Invalid token")
      | inl claims =>
          match getUserByID fs (Claims_UserID claims) with
          | inr _ => Abort (fail http.StatusUnauthorized "unauthorized" "User not found")
          | inl user =>
              Next (Set_ (Set_ (Set_ c "user" (KUser user))
                                     "user_id" (KString (User_ID user)))
                                "user_role" (KString (User_Role user)))
          end
      end.

End AuthMiddleware.

End middleware.

(** ** Package [strconv] *)

Module strconv.

Definition digit_value (a : ascii) : option Z :=
  let n := Z.of_nat (nat_of_ascii a) in
  if decide (48 ≤ n ≤ 57) then Some (n - 48) else None.

Fixpoint parse_digits (s : string) (acc : Z) : option Z :=
  match s with
  | EmptyString => Some acc
  | String a r =>
      match digit_value a with
      | Some d => parse_digits r (10 * acc + d)
      | None => None
      end
  end.

Definition maxInt : Z := 2 ^ 63 - 1.
Definition minInt : Z := - 2 ^ 63.

(** [n, _ := strconv.Atoi(s)]: the value Go leaves in [n] when the error is
    dropped: [0] on a syntax error, the nearest bound on a range error. *)
Definition Atoi_value (s : string) : Z :=
  let '(neg, body) :=
    match s with
    | String "-" r => (true, r)
    | String "+" r => (false, r)
    | _ => (false, s)
    end in
  match body with
  | EmptyString => 0
  | _ =>
      match parse_digits body 0 with
      | None => 0
      | Some n =>
          let v := if neg then - n else n in
          if decide (v < minInt) then minInt
          else if decide (maxInt < v) then maxInt else v
      end
  end.

End strconv.

(** ** Package [handlers]: [fields.go] *)

Module handlers.
Import models firestore services gin.

(** The string the binder reports for a body that is not a JSON object. *)
Definition bind_error : string := "invalid request body".

Definition ok (data : Data) (message : string) : Response :=
  JSON http.StatusOK
       (SuccessBody {| Success := true; Data_ := data; Message_ := message |}).

(** [for key, value := range updateData]: one field write per entry. *)
Definition updates_of (updateData : gmap string Any) : list Update :=
  (fun kv => {| Path := kv.1; Value := kv.2 |}) <$> map_to_list updateData.

Definition getFieldByID (fs : FirestoreService) (fieldID : string) : Field + error :=
  match DocGet (Fields fs) fieldID with
  | inr err => inr err
  | inl doc => inl (Field_DataTo doc)
  end.

(** [GetFields]: the handler does not read the caller from the context. *)
Definition GetFields (fs : FirestoreService) (c : Context) : Outcome FirestoreService :=
  let query := CollectionQuery (Fields fs) in
  let docs := GetAll query in
  Responded (ok (FieldList (Field_DataTo <$> docs)) "") fs.

Definition GetField (fs : FirestoreService) (c : Context) : Outcome FirestoreService :=
  let fieldID := Param c "id" in
  match CurrentUser c with
  | None => Panicked fs
  | Some user =>
      match getFieldByID fs fieldID with
      | inr _ => Responded (fail http.StatusNotFound "not_found" "Field not found") fs
      | inl field =>
          if decide (User_Role user ≠ "admin" ∧ Field_OwnerID field ≠ User_ID user)
          then Responded (fail http.StatusForbidden "forbidden" "Access denied") fs
          else Responded (ok (OneField field) "") fs
      end
  end.

(** [UpdateField]; [t1] and [t2] are its two readings of [time.Now()]. *)
Definition UpdateField (fs : FirestoreService) (t1 t2 : time.Time) (c : Context)
  : Outcome FirestoreService :=
  let fieldID := Param c "id" in
  match CurrentUser c with
  | None => Panicked fs
  | Some user =>
      match JSONBody c with
      | None => Responded (fail http.StatusBadRequest "invalid_request" bind_error) fs
      | Some updateData =>
          match getFieldByID fs fieldID with
          | inr _ => Responded (fail http.StatusNotFound "not_found" "Field not found") fs
          | inl field =>
              if decide (User_Role user ≠ "admin" ∧ Field_OwnerID field ≠ User_ID user)
              then Responded (fail http.StatusForbidden "forbidden" "Access denied") fs
              else
                let updateData := delete "id" updateData in
                let updateData := delete "owner_id" updateData in
                let updateData := delete "created_at" updateData in
                let updateData := <["updated_at" := VTime t1]> updateData in
                let updates :=
                  {| Path := "updated_at"; Value := VTime t2 |} :: updates_of updateData in
                match DocUpdate (Fields fs) fieldID updates with
                | inr _ =>
                    Responded (fail http.StatusInternalServerError "internal_error"
                                    "Failed to update field") fs
                | inl fields' =>
                    let fs' := with_Fields fs fields' in
                    match getFieldByID fs' fieldID with
                    | inr _ =>
                        Responded (fail http.StatusInternalServerError "internal_error"
                                        "Failed to retrieve updated field") fs'
                    | inl updatedField =>
                        Responded (ok (OneField updatedField) "Field updated successfully") fs'
                    end
                end
          end
      end
  end.

Definition DeleteField (fs : FirestoreService) (c : Context) : Outcome FirestoreService :=
  let fieldID := Param c "id" in
  match CurrentUser c with
  | None => Panicked fs
  | Some user =>
      match getFieldByID fs fieldID with
      | inr _ => Responded (fail http.StatusNotFound "not_found" "Field not found") fs
      | inl field =>
          if decide (User_Role user ≠ "admin" ∧ Field_OwnerID field ≠ User_ID user)
          then Responded (fail http.StatusForbidden "forbidden" "Access denied") fs
          else
            let fs' := with_Fields fs (DocDelete (Fields fs) fieldID) in
            Responded (ok NoData "Field deleted successfully") fs'
      end
  end.

(** *** Submission handlers common to both copies of the file *)

(** [UpdateSubmission]; [t1] and [t2] are its two readings of [time.Now()]. *)
Definition UpdateSubmission (fs : FirestoreService) (t1 t2 : time.Time) (c : Context)
  : Outcome FirestoreService :=
  let submissionID := Param c "id" in
  match CurrentUser c with
  | None => Panicked fs
  | Some user =>
      match JSONBody c with
      | None => Responded (fail http.StatusBadRequest "invalid_request" bind_error) fs
      | Some updateData =>
          match DocGet (Submissions fs) submissionID with
          | inr _ =>
              Responded (fail http.StatusNotFound "not_found" "Submission not found") fs
          | inl doc =>
              let submission := Submission_DataTo doc in
              if decide (User_Role user ≠ "admin" ∧ UserID submission ≠ User_ID user)
              then Responded (fail http.StatusForbidden "forbidden" "Access denied") fs
              else
                let updateData := delete "id" updateData in
                let updateData := delete "user_id" updateData in
                let updateData := delete "created_at" updateData in
                let updateData := <["updated_at" := VTime t1]> updateData in
                let updates :=
                  {| Path := "updated_at"; Value := VTime t2 |} :: updates_of updateData in
                match DocUpdate (Submissions fs) submissionID updates with
                | inr _ =>
                    Responded (fail http.StatusInternalServerError "internal_error"
                                    "Failed to update submission") fs
                | inl submissions' =>
                    let fs' := with_Submissions fs submissions' in
                    match DocGet (Submissions fs') submissionID with
                    | inr _ =>
                        Responded (fail http.StatusInternalServerError "internal_error"
                                        "Failed to retrieve updated submission") fs'
                    | inl doc' =>
                        Responded (ok (OneSubmission (Submission_DataTo doc'))
                                      "Submission updated successfully") fs'
                    end
                end
          end
      end
  end.

Definition DeleteSubmission (fs : FirestoreService) (c : Context)
  : Outcome FirestoreService :=
  let submissionID := Param c "id" in
  match CurrentUser c with
  | None => Panicked fs
  | Some user =>
      match DocGet (Submissions fs) submissionID with
      | inr _ =>
          Responded (fail http.StatusNotFound "not_found" "Submission not found") fs
      | inl doc =>
          let submission := Submission_DataTo doc in
          if decide (User_Role user ≠ "admin" ∧ UserID submission ≠ User_ID user)
          then Responded (fail http.StatusForbidden "forbidden" "Access denied") fs
          else
            let fs' := with_Submissions fs (DocDelete (Submissions fs) submissionID) in
            Responded (ok NoData "Submission deleted successfully") fs'
      end
  end.

End handlers.

(** ** [ExportSubmissions] and the list and read handlers, in both copies *)

Module csv.
Import models.

Definition nl : string := String (ascii_of_nat 10) "".

Definition header : string := "ID,Date,Location,Growth Stage,Observer,Status" +:+ nl.

(** The operands both copies pass to [Sprintf] for one row. *)
Definition operands (s : Submission) : list string :=
  [ID s; time.Format_date (Date s); GrowthStage s; ObserverName s; Status s].

(** [csvContent += row] for each submission in turn. *)
Definition content (row : Submission -> string) (submissions : list Submission) : string :=
  foldl (fun acc s => acc +:+ row s) header submissions.

(** The lines of a text that ends every line with a newline. *)
Definition lines (text : string) : list string :=
  removelast (gostrings.Split text (ascii_of_nat 10)).

Definition columns (line : string) : list string := gostrings.Split line ",".

(** Whether the byte [c] is absent from [s]. *)
Fixpoint free_of (c : ascii) (s : string) : bool :=
  match s with
  | EmptyString => true
  | String a r => negb (bool_decide (a = c)) && free_of c r
  end.

(** A submission whose printed fields hold neither a comma nor a newline. *)
Definition plain (s : Submission) : Prop :=
  ∀ c, c = ","%char ∨ c = ascii_of_nat 10 ->
       free_of c (ID s) = true ∧ free_of c (GrowthStage s) = true
       ∧ free_of c (ObserverName s) = true ∧ free_of c (Status s) = true.

End csv.

(** 64-bit [int] arithmetic wraps. *)
Definition wrap64 (z : Z) : Z := (z + 2 ^ 63) mod 2 ^ 64 - 2 ^ 63.

(** [src/backend/handlers/submissions.go].  Its [CreateSubmission] sets a
    member [Field] that the struct of [models.go] does not have; the create
    handler is taken from the other copy. *)
Module submissions_go.
Import models firestore services gin handlers.

Definition GetSubmissions (fs : FirestoreService) (c : Context) : Outcome FirestoreService :=
  match CurrentUser c with
  | None => Panicked fs
  | Some user =>
      let page := strconv.Atoi_value (DefaultQuery c "page" "1") in
      let limit := strconv.Atoi_value (DefaultQuery c "limit" "20") in
      let status := Query c "status" in
      let fieldID := Query c "field_id" in
      let query := CollectionQuery (Submissions fs) in
      let query :=
        if decide (User_Role user ≠ "admin")
        then Where query "user_id" (User_ID user) else query in
      let query := if decide (status ≠ "") then Where query "status" status else query in
      let query := if decide (fieldID ≠ "") then Where query "field_id" fieldID else query in
      let query := OrderByDesc query "created_at" in
      let query :=
        if decide (1 < page) then Offset query (wrap64 ((page - 1) * limit)) else query in
      let query := Limit query limit in
      let docs := GetAll query in
      let submissions := Submission_DataTo <$> docs in
      Responded (ok (SubmissionPage submissions page limit (Z.of_nat (length submissions))) "") fs
  end.

Definition GetSubmission (fs : FirestoreService) (c : Context) : Outcome FirestoreService :=
  let submissionID := Param c "id" in
  match CurrentUser c with
  | None => Panicked fs
  | Some user =>
      match DocGet (Submissions fs) submissionID with
      | inr _ =>
          Responded (fail http.StatusNotFound "not_found" "Submission not found") fs
      | inl doc =>
          let submission := Submission_DataTo doc in
          if decide (User_Role user ≠ "admin" ∧ UserID submission ≠ User_ID user)
          then Responded (fail http.StatusForbidden "forbidden" "Access denied") fs
          else Responded (ok (OneSubmission submission) "") fs
      end
  end.

(** Six verbs, five operands. *)
Definition row (s : Submission) : string :=
  fmt.Sprintf ("%s,%s,%s,%s,%s,%s" +:+ csv.nl) (csv.operands s).

Definition ExportSubmissions (fs : FirestoreService) (c : Context)
  : Outcome FirestoreService :=
  match CurrentUser c with
  | None => Panicked fs
  | Some user =>
      let query := CollectionQuery (Submissions fs) in
      let query :=
        if decide (User_Role user ≠ "admin")
        then Where query "user_id" (User_ID user) else query in
      let submissions := Submission_DataTo <$> GetAll query in
      Responded
        {| StatusCode := http.StatusOK;
           ResponseHeader :=
             [("Content-Type", "text/csv");
              ("Content-Disposition", "attachment; filename=submissions.csv")];
           ResponseBody := TextBody (csv.content row submissions) |} fs
  end.

End submissions_go.

(** [src/unnamed/part_002], the copy that joins each submission with its
    field on reads. *)
Module part_002.
Import models firestore services gin handlers.

(** One iteration of the loop over the documents: [None] is [continue]. *)
Definition join (fs : FirestoreService) (doc : Doc) : option SubmissionResponse :=
  let submission := Submission_DataTo doc in
  match DocGet (Fields fs) (FieldID submission) with
  | inr _ => None
  | inl fieldDoc =>
      Some {| Resp_Submission := submission; Resp_Field := Field_DataTo fieldDoc |}
  end.

Definition GetSubmissions (fs : FirestoreService) (c : Context) : Outcome FirestoreService :=
  match CurrentUser c with
  | None => Panicked fs
  | Some user =>
      let page := strconv.Atoi_value (DefaultQuery c "page" "1") in
      let limit := strconv.Atoi_value (DefaultQuery c "limit" "20") in
      let status := Query c "status" in
      let query := CollectionQuery (Submissions fs) in
      let query :=
        if decide (User_Role user ≠ "admin")
        then Where query "user_id" (User_ID user) else query in
      let query :=
        if decide (1 < page) then Offset query (wrap64 ((page - 1) * limit)) else query in
      let query := Limit query limit in
      let docs := GetAll query in
      let submissionsResponse := omap (join fs) docs in
      Responded
        (ok (SubmissionResponsePage submissionsResponse page limit
                                    (Z.of_nat (length submissionsResponse))) "") fs
  end.

(** The authenticated caller, the server-drawn id and the two clock
    readings make the record; nothing of it but the request fields comes
    from the caller. *)
Definition newSubmission (user : User) (req : CreateSubmissionRequest)
    (id : string) (t1 t2 : time.Time) : Submission :=
  {| ID := id;
     UserID := User_ID user;
     FieldID := Req_FieldID req;
     Date := Req_Date req;
     GrowthStage := Req_GrowthStage req;
     PlantConditions := Req_PlantConditions req;
     Traits := Req_Traits req;
     Notes := Req_Notes req;
     ObserverName := Req_ObserverName req;
     Images := Req_Images req;
     Status := "submitted";
     CreatedAt := t1;
     UpdatedAt := t2 |}.

Definition required_string (body : gmap string Any) (k : string) : option string :=
  match body !! k with
  | Some (VString s) => if decide (s = "") then None else Some s
  | _ => None
  end.

Definition required_time (body : gmap string Any) (k : string) : option time.Time :=
  match body !! k with
  | Some (VTime t) => if decide (t = time.zero) then None else Some t
  | _ => None
  end.

Definition optional_string (body : gmap string Any) (k : string) : option string :=
  match body !! k with
  | None | Some VNull => Some ""
  | Some (VString s) => Some s
  | _ => None
  end.

Definition optional_strings (body : gmap string Any) (k : string) : option (list string) :=
  match body !! k with
  | None | Some VNull => Some []
  | Some (VArray l) => mapM as_string l
  | _ => None
  end.

Definition optional_float (m : list (string * Any)) (k : string) : option Z :=
  match assoc m k with
  | None | Some VNull => Some 0
  | Some (VFloat b) => Some b
  | _ => None
  end.

Definition optional_int (m : list (string * Any)) (k : string) : option Z :=
  match assoc m k with
  | None | Some VNull => Some 0
  | Some (VInt n) => Some n
  | _ => None
  end.

Definition optional_traits (body : gmap string Any) (k : string) : option TraitMeasurements :=
  match body !! k with
  | None | Some VNull =>
      Some {| CulmLength := 0; PanicleLength := 0; PaniclesPerHill := 0; HillsObserved := 0 |}
  | Some (VMap m) =>
      cl ← optional_float m "culm_length";
      pl ← optional_float m "panicle_length";
      pph ← optional_int m "panicles_per_hill";
      ho ← optional_int m "hills_observed";
      Some {| CulmLength := cl; PanicleLength := pl; PaniclesPerHill := pph; HillsObserved := ho |}
  | _ => None
  end.

(** [c.ShouldBindJSON(&req)] for [models.CreateSubmissionRequest]: the
    tagged fields are read, the required ones must be present and not zero,
    and every other key of the body is ignored. *)
Definition bind (body : gmap string Any) : option CreateSubmissionRequest :=
  fid ← required_string body "field_id";
  date ← required_time body "date";
  stage ← required_string body "growth_stage";
  conds ← optional_strings body "plant_conditions";
  traits ← optional_traits body "trait_measurements";
  notes ← optional_string body "notes";
  observer ← required_string body "observer_name";
  images ← optional_strings body "images";
  Some {| Req_FieldID := fid; Req_Date := date; Req_GrowthStage := stage;
          Req_PlantConditions := conds; Req_Traits := traits; Req_Notes := notes;
          Req_ObserverName := observer; Req_Images := images |}.

(** [CreateSubmission]; [id] is what [utils.GenerateID()] returned, [t1]
    and [t2] the two readings of [time.Now()]. *)
Definition CreateSubmission (fs : FirestoreService) (id : string) (t1 t2 : time.Time)
    (c : Context) : Outcome FirestoreService :=
  match JSONBody c ≫= bind with
  | None => Responded (fail http.StatusBadRequest "invalid_request" bind_error) fs
  | Some req =>
      match CurrentUser c with
      | None => Panicked fs
      | Some user =>
          let submission := newSubmission user req id t1 t2 in
          let fs' :=
            with_Submissions fs
              (DocSet (Submissions fs) (ID submission) (Submission_doc submission)) in
          Responded
            (JSON http.StatusCreated
               (SuccessBody {| Success := true; Data_ := OneSubmission submission;
                               Message_ := "Submission created successfully" |})) fs'
      end
  end.

Definition GetSubmission (fs : FirestoreService) (c : Context) : Outcome FirestoreService :=
  let submissionID := Param c "id" in
  match CurrentUser c with
  | None => Panicked fs
  | Some user =>
      match DocGet (Submissions fs) submissionID with
      | inr _ =>
          Responded (fail http.StatusNotFound "not_found" "Submission not found") fs
      | inl doc =>
          let submission := Submission_DataTo doc in
          if decide (User_Role user ≠ "admin" ∧ UserID submission ≠ User_ID user)
          then Responded (fail http.StatusForbidden "forbidden" "Access denied") fs
          else
            match DocGet (Fields fs) (FieldID submission) with
            | inr _ =>
                Responded (fail http.StatusInternalServerError "internal_error"
                                "Failed to retrieve associated field data") fs
            | inl field_doc =>
                Responded
                  (ok (OneSubmissionResponse
                         {| Resp_Submission := submission;
                            Resp_Field := Field_DataTo field_doc |}) "") fs
            end
      end
  end.

(** Five verbs, five operands. *)
Definition row (s : Submission) : string :=
  fmt.Sprintf ("%s,%s,%s,%s,%s" +:+ csv.nl) (csv.operands s).

Definition ExportSubmissions (fs : FirestoreService) (c : Context)
  : Outcome FirestoreService :=
  match CurrentUser c with
  | None => Panicked fs
  | Some user =>
      let query := CollectionQuery (Submissions fs) in
      let query :=
        if decide (User_Role user ≠ "admin")
        then Where query "user_id" (User_ID user) else query in
      let submissions := Submission_DataTo <$> GetAll query in
      Responded
        {| StatusCode := http.StatusOK;
           ResponseHeader :=
             [("Content-Type", "text/csv");
              ("Content-Disposition", "attachment; filename=submissions.csv")];
           ResponseBody := TextBody (csv.content row submissions) |} fs
  end.

End part_002.

(** ** The identity resolver ([src/unnamed/part_003]) *)

Module idtoken.
Import firestore.

(** [idtoken.Validate(ctx, token, audience)], Google's verification of the
    assertion: the payload's claims, or [None] when it does not verify. *)
Class Validator : Type := {
  Validate : string -> string -> option (gmap string Any)
}.

End idtoken.

Module auth.
Import models firestore services gin handlers.

(** What the environment supplies during one login: the id drawn by
    [utils.GenerateID()] and the readings of [time.Now()], in program
    order (a path that makes fewer readings leaves the others unused). *)
Record LoginEnv : Type := {
  new_id : string;
  t_created : time.Time;
  t_updated : time.Time;
  t_first_login : time.Time;
  t_access_exp : time.Time;
  t_access_iat : time.Time;
  t_refresh_exp : time.Time;
  t_refresh_iat : time.Time;
  t_last_login : time.Time;
  t_stamp : time.Time
}.

(** [Users().Where("email", "==", email).Documents(ctx).GetAll()] *)
Definition usersByEmail (fs : FirestoreService) (email : string) : list Doc :=
  GetAll (Where (CollectionQuery (Users fs)) "email" email).

Definition getOrCreateUser (fs : FirestoreService) (tokenInfo : GoogleUserInfo)
    (env : LoginEnv) : (User * FirestoreService) + error :=
  match usersByEmail fs (Info_Email tokenInfo) with
  | doc :: _ => inl (User_DataTo doc, fs)
  | [] =>
      let user :=
        {| User_ID := new_id env;
           User_Email := Info_Email tokenInfo;
           User_Name := Info_Name tokenInfo;
           User_Picture := Info_Picture tokenInfo;
           User_Role := "observer";
           User_CreatedAt := t_created env;
           User_UpdatedAt := t_updated env;
           User_LastLoginAt := t_first_login env |} in
      inl (user, with_Users fs (DocSet (Users fs) (User_ID user) (User_doc user)))
  end.

(** [updateUserLastLogin]: a failed update is logged and otherwise
    ignored. *)
Definition updateUserLastLogin (fs : FirestoreService) (userID : string)
    (now : time.Time) : FirestoreService :=
  match DocUpdate (Users fs) userID [{| Path := "last_login_at"; Value := VTime now |}] with
  | inl users' => with_Users fs users'
  | inr _ => fs
  end.

Definition with_LastLoginAt (u : User) (t : time.Time) : User :=
  {| User_ID := User_ID u; User_Email := User_Email u; User_Name := User_Name u;
     User_Picture := User_Picture u; User_Role := User_Role u;
     User_CreatedAt := User_CreatedAt u; User_UpdatedAt := User_UpdatedAt u;
     User_LastLoginAt := t |}.

Section GoogleLogin.
Context `{L : jwt.Library} `{V : idtoken.Validator}.
Variables (jwtSecret clientID : string).

Definition GoogleLogin (fs : FirestoreService) (env : LoginEnv) (c : Context)
  : Outcome FirestoreService :=
  match JSONBody c ≫= (fun body => part_002.required_string body "token") with
  | None => Responded (fail http.StatusBadRequest "invalid_request" bind_error) fs
  | Some token =>
      match idtoken.Validate token clientID with
      | None =>
          Responded (fail http.StatusUnauthorized "invalid_token" "Invalid Google ID token") fs
      | Some payload =>
          let tokenInfo :=
            {| Info_Email := get_string payload "email";
               Info_Name := get_string payload "name";
               Info_Picture := get_string payload "picture" |} in
          match getOrCreateUser fs tokenInfo env with
          | inr _ =>
              Responded (fail http.StatusInternalServerError "internal_error"
                              "Failed to process user") fs
          | inl (user, fs1) =>
              match utils.GenerateTokens jwtSecret user (t_access_exp env) (t_access_iat env)
                      (t_refresh_exp env) (t_refresh_iat env) with
              | inr _ =>
                  Responded (fail http.StatusInternalServerError "internal_error"
                                  "Failed to generate tokens") fs1
              | inl (accessToken, refreshToken) =>
                  let user' := with_LastLoginAt user (t_last_login env) in
                  let fs2 := updateUserLastLogin fs1 (User_ID user') (t_stamp env) in
                  Responded
                    (JSON http.StatusOK
                       (AuthBody {| Auth_User := user'; AccessToken := accessToken;
                                    RefreshToken := refreshToken; ExpiresIn := 3600 |})) fs2
              end
          end
      end
  end.

End GoogleLogin.

End auth.

(** ** The image handler (in [src/backend/models/models.go]) *)

Module filepath.

Fixpoint has_separator (s : string) : bool :=
  match s with
  | EmptyString => false
  | String a r => bool_decide (a = "/"%char) || has_separator r
  end.

(** [filepath.Ext]: the suffix from the last dot of the last element of the
    path, empty when there is no dot. *)
Fixpoint Ext (path : string) : string :=
  match path with
  | EmptyString => ""
  | String a r =>
      match Ext r with
      | String _ _ as e => e
      | EmptyString =>
          if has_separator r then ""
          else if decide (a = "."%char) then path else ""
      end
  end.

End filepath.

Module images.
Import models firestore services gin handlers.

(** The writer of a bucket object: [io.Copy] then [Close] store the bytes
    under the name. *)
Definition Write (ss : StorageService) (name contentType content : string)
  : StorageService + error :=
  inl {| BucketName := BucketName ss;
         Objects := <[name := (contentType, content)]> (Objects ss) |}.

Definition with_image (s : Submission) (imageURL : string) (now : time.Time) : Submission :=
  {| ID := ID s; UserID := UserID s; FieldID := FieldID s; Date := Date s;
     GrowthStage := GrowthStage s; PlantConditions := PlantConditions s;
     Traits := Traits s; Notes := Notes s; ObserverName := ObserverName s;
     Images := Images s ++ [imageURL]; Status := Status s;
     CreatedAt := CreatedAt s; UpdatedAt := now |}.

(** The function [addImageToSubmission] runs inside the transaction, on the
    document [tx.Get] returned: the document [tx.Set] writes back. *)
Definition appended (doc : Doc) (imageURL : string) (now : time.Time) : Doc :=
  Submission_doc (with_image (Submission_DataTo doc) imageURL now).

(** [addImageToSubmission] when no other transaction interferes. *)
Definition addImageToSubmission (fs : FirestoreService) (submissionID imageURL : string)
    (now : time.Time) : FirestoreService + error :=
  match DocGet (Submissions fs) submissionID with
  | inr err => inr err
  | inl doc =>
      inl (with_Submissions fs
             (DocSet (Submissions fs) submissionID (appended doc imageURL now)))
  end.

(** [UploadImage]; [id] is what [utils.GenerateID()] returned, [t1] the
    clock reading in the object name, [t2] the one in the transaction. *)
Definition UploadImage (st : StorageService * FirestoreService) (id : string)
    (t1 t2 : time.Time) (c : Context) : Outcome (StorageService * FirestoreService) :=
  let '(ss, fs) := st in
  let submissionID := PostForm c "submission_id" in
  if decide (submissionID = "") then
    Responded (fail http.StatusBadRequest "invalid_request" "submission_id is required") st
  else
    match FormFiles c !! "image" with
    | None => Responded (fail http.StatusBadRequest "invalid_request" "No file uploaded") st
    | Some header =>
        let ext := filepath.Ext (Filename header) in
        if negb (utils.ValidateFileType (Filename header)) then
          Responded (fail http.StatusBadRequest "invalid_file_type"
                          "Only JPG, JPEG, PNG, and WebP files are allowed") st
        else
          let filename :=
            fmt.Sprintf "%s/%s_%s%s" [submissionID; id; time.Format_stamp t1; ext] in
          match Write ss filename (ContentType header) (Content header) with
          | inr _ =>
              Responded (fail http.StatusInternalServerError "upload_failed"
                              "Failed to upload file") st
          | inl ss' =>
              let imageURL :=
                fmt.Sprintf "https://storage.googleapis.com/%s/%s" [BucketName ss'; filename] in
              let uploaded := ok (Uploaded filename imageURL) "Image uploaded successfully" in
              if decide (submissionID ≠ "") then
                match gostrings.slice_to submissionID 5 with
                | None => Panicked (ss', fs)
                | Some head =>
                    if decide (head ≠ "temp_") then
                      match addImageToSubmission fs submissionID imageURL t2 with
                      | inr _ =>
                          Responded (fail http.StatusInternalServerError "internal_error"
                                          "Failed to update submission with image") (ss', fs)
                      | inl fs' => Responded uploaded (ss', fs')
                      end
                    else Responded uploaded (ss', fs)
                end
              else Responded uploaded (ss', fs)
        end
    end.

(** *** Concurrent uploads to one submission

    [RunTransaction] reads the document with [tx.Get], runs the function on
    what it read and commits the write of [tx.Set]; the store accepts the
    commit only if the document has not changed since the read, and
    otherwise the function is run again.  Each upload is a process that is
    idle, has read, or has committed. *)

Record Upload : Type := { imageURL : string; stamp : time.Time }.

Inductive Attempt : Type :=
| Idle
| HasRead (snapshot : Doc) (seen : nat)
| Committed.

(** The submission document with its write version, and one attempt per
    upload. *)
Record Shared : Type := {
  document : Doc;
  version : nat;
  attempts : list Attempt
}.

Inductive step (uploads : list Upload) : Shared -> Shared -> Prop :=
| step_read i s :
    attempts s !! i = Some Idle ->
    step uploads s
      {| document := document s; version := version s;
         attempts := <[i := HasRead (document s) (version s)]> (attempts s) |}
| step_commit i s snapshot u :
    attempts s !! i = Some (HasRead snapshot (version s)) ->
    uploads !! i = Some u ->
    step uploads s
      {| document := appended snapshot (imageURL u) (stamp u);
         version := S (version s);
         attempts := <[i := Committed]> (attempts s) |}
| step_retry i s snapshot seen :
    attempts s !! i = Some (HasRead snapshot seen) ->
    seen ≠ version s ->
    step uploads s
      {| document := document s; version := version s;
         attempts := <[i := Idle]> (attempts s) |}.

(** Any interleaving of the uploads' steps. *)
Inductive run (uploads : list Upload) : Shared -> Shared -> Prop :=
| run_refl s : run uploads s s
| run_step s1 s2 s3 : run uploads s1 s2 -> step uploads s2 s3 -> run uploads s1 s3.

Definition start (doc : Doc) (uploads : list Upload) : Shared :=
  {| document := doc; version := 0; attempts := replicate (length uploads) Idle |}.

Definition committed (a : Attempt) : bool :=
  match a with Committed => true | _ => false end.

(** The URLs of the uploads that have committed, in upload order. *)
Fixpoint committed_urls (uploads : list Upload) (atts : list Attempt) : list string :=
  match uploads, atts with
  | u :: us, a :: r =>
      if committed a then imageURL u :: committed_urls us r else committed_urls us r
  | _, _ => []
  end.

(** A schedule that runs the uploads one after the other, for showing that
    complete runs exist. *)
Fixpoint serial (uploads : list Upload) (doc : Doc) : Doc :=
  match uploads with
  | [] => doc
  | u :: r => serial r (appended doc (imageURL u) (stamp u))
  end.

End images.


(** ** Statements shared by the properties below *)

Module spec.
Import models firestore services gin.

(** The caller the authorization gate attached to the request. *)
Definition authenticated (c : Context) (u : User) : Prop := CurrentUser c = Some u.

(** What an accepted update leaves of a stored document [doc] in the new
    document [doc']: the protected fields as they were, updated-at at the
    server's reading [t], and every other field as the caller supplied it,
    or as it was when the caller did not supply it. *)
Definition update_frame (owner_key : string) (t : time.Time)
    (updateData doc doc' : gmap string Any) : Prop :=
  doc' !! "id" = doc !! "id"
  ∧ doc' !! owner_key = doc !! owner_key
  ∧ doc' !! "created_at" = doc !! "created_at"
  ∧ doc' !! "updated_at" = Some (VTime t)
  ∧ ∀ k, k ∉ ["id"; owner_key; "created_at"; "updated_at"] ->
         doc' !! k = match updateData !! k with Some v => Some v | None => doc !! k end.

Section Gate.
Context `{L : jwt.Library}.
Variable jwtSecret : string.

(** The four ways a request fails the authorization gate: no
    Authorization header, no "Bearer " prefix, a bearer token that does not
    validate, or claims whose user id names no stored user. *)
Definition refused (fs : FirestoreService) (now : time.Time) (c : Context) : Prop :=
  let authHeader := GetHeader c "Authorization" in
  authHeader = ""
  ∨ gostrings.HasPrefix authHeader "Bearer " = false
  ∨ ∃ tokenString,
      authHeader = "Bearer " +:+ tokenString
      ∧ match utils.ValidateToken jwtSecret tokenString now with
        | inr _ => True
        | inl claims => Users fs !! Claims_UserID claims = None
        end.

End Gate.

(** The store a handler leaves, with or without a response. *)
Definition after {S : Type} (o : Outcome S) : S :=
  match o with
  | Responded _ s => s
  | Panicked s => s
  end.

(** The submissions [ExportSubmissions] reads for a caller. *)
Definition exported (fs : FirestoreService) (user : User) : list Submission :=
  Submission_DataTo
    <$> GetAll (if decide (User_Role user ≠ "admin")
                then Where (CollectionQuery (Submissions fs)) "user_id" (User_ID user)
                else CollectionQuery (Submissions fs)).

(** Every user document is stored under the id it carries, as the code
    that creates users stores it. *)
Definition users_well_formed (fs : FirestoreService) : Prop :=
  map_Forall (fun k d => User_ID (User_DataTo d) = k) (Users fs).

(** The user a first login creates. *)
Definition first_login_user (info : GoogleUserInfo) (id : string)
    (created updated login : time.Time) : User :=
  {| User_ID := id; User_Email := Info_Email info; User_Name := Info_Name info;
     User_Picture := Info_Picture info; User_Role := "observer";
     User_CreatedAt := created; User_UpdatedAt := updated; User_LastLoginAt := login |}.

(** The context with the resolved user, its id and its role attached. *)
Definition attached (c : Context) (user : User) : Context :=
  Set_ (Set_ (Set_ c "user" (KUser user)) "user_id" (KString (User_ID user)))
       "user_role" (KString (User_Role user)).

End spec.

(** * The rest of the backend *)

(** ** The user handler ([src/unnamed/part_003]) *)

Module users.
Import models firestore services gin handlers.

Definition getUserByID (fs : FirestoreService) (userID : string) : User + error :=
  match DocGet (Users fs) userID with
  | inr err => inr err
  | inl doc => inl (User_DataTo doc)
  end.

Definition GetUser (fs : FirestoreService) (c : Context) : Outcome FirestoreService :=
  let userID := Param c "id" in
  match CurrentUser c with
  | None => Panicked fs
  | Some currentUserObj =>
      if decide (User_ID currentUserObj ≠ userID ∧ User_Role currentUserObj ≠ "admin")
      then Responded (fail http.StatusForbidden "forbidden" "Access denied") fs
      else
        match getUserByID fs userID with
        | inr _ => Responded (fail http.StatusNotFound "not_found" "User not found") fs
        | inl user => Responded (ok (OneUser user) "") fs
        end
  end.

(** The caller's map as [UpdateUser] prepares it: id, email and created-at
    removed, updated-at set, and the role removed unless the caller is
    admin. *)
Definition prepared (currentUserObj : User) (updateData : gmap string Any)
    (t1 : time.Time) : gmap string Any :=
  let updateData := delete "id" updateData in
  let updateData := delete "email" updateData in
  let updateData := delete "created_at" updateData in
  let updateData := <["updated_at" := VTime t1]> updateData in
  if decide (User_Role currentUserObj ≠ "admin") then delete "role" updateData
  else updateData.

(** [UpdateUser]; [t1] and [t2] are its two readings of [time.Now()]. *)
Definition UpdateUser (fs : FirestoreService) (t1 t2 : time.Time) (c : Context)
  : Outcome FirestoreService :=
  let userID := Param c "id" in
  match CurrentUser c with
  | None => Panicked fs
  | Some currentUserObj =>
      if decide (User_ID currentUserObj ≠ userID ∧ User_Role currentUserObj ≠ "admin")
      then Responded (fail http.StatusForbidden "forbidden" "Access denied") fs
      else
        match JSONBody c with
        | None => Responded (fail http.StatusBadRequest "invalid_request" bind_error) fs
        | Some updateData =>
            let updateData := prepared currentUserObj updateData t1 in
            let updates :=
              {| Path := "updated_at"; Value := VTime t2 |} :: updates_of updateData in
            match DocUpdate (Users fs) userID updates with
            | inr _ =>
                Responded (fail http.StatusInternalServerError "internal_error"
                                "Failed to update user") fs
            | inl users' =>
                let fs' := with_Users fs users' in
                match getUserByID fs' userID with
                | inr _ =>
                    Responded (fail http.StatusInternalServerError "internal_error"
                                    "Failed to retrieve updated user") fs'
                | inl user => Responded (ok (OneUser user) "User updated successfully") fs'
                end
            end
        end
  end.

Definition DeleteUser (fs : FirestoreService) (c : Context) : Outcome FirestoreService :=
  let userID := Param c "id" in
  match CurrentUser c with
  | None => Panicked fs
  | Some currentUserObj =>
      if decide (User_Role currentUserObj ≠ "admin") then
        Responded (fail http.StatusForbidden "forbidden"
                        "Only administrators can delete users") fs
      else if decide (User_ID currentUserObj = userID) then
        Responded (fail http.StatusBadRequest "invalid_request"
                        "Cannot delete your own account") fs
      else
        Responded (ok NoData "User deleted successfully")
                  (with_Users fs (DocDelete (Users fs) userID))
  end.

End users.

(** ** The rest of the auth handler ([src/unnamed/part_003]) *)

Module session.
Import models firestore services gin handlers.

Section Session.
Context `{L : jwt.Library}.
Variable jwtSecret : string.

(** [RefreshToken]; [now] is the clock when the token is validated,
    [t1 .. t4] the readings of [GenerateTokens]. *)
Definition RefreshToken (fs : FirestoreService) (now t1 t2 t3 t4 : time.Time)
    (c : Context) : Outcome FirestoreService :=
  match JSONBody c ≫= (fun body => part_002.required_string body "refresh_token") with
  | None => Responded (fail http.StatusBadRequest "invalid_request" bind_error) fs
  | Some refreshToken =>
      match utils.ValidateToken jwtSecret refreshToken now with
      | inr _ =>
          Responded (fail http.StatusUnauthorized "invalid_token" "Invalid refresh token") fs
      | inl claims =>
          match users.getUserByID fs (Claims_UserID claims) with
          | inr _ =>
              Responded (fail http.StatusNotFound "user_not_found" "User not found") fs
          | inl user =>
              match utils.GenerateTokens jwtSecret user t1 t2 t3 t4 with
              | inr _ =>
                  Responded (fail http.StatusInternalServerError "internal_error"
                                  "Failed to generate tokens") fs
              | inl (accessToken, refreshToken') =>
                  Responded
                    (JSON http.StatusOK
                       (AuthBody {| Auth_User := user; AccessToken := accessToken;
                                    RefreshToken := refreshToken'; ExpiresIn := 3600 |})) fs
              end
          end
      end
  end.

End Session.

Definition Logout (fs : FirestoreService) (c : Context) : Outcome FirestoreService :=
  Responded (ok NoData "Logged out successfully") fs.

(** [GetCurrentUser] answers 200 with whatever the key "user" holds, or 401
    when the key is not set. *)
Definition GetCurrentUser (c : Context) : Z * (KeyValue + ErrorResponse) :=
  match Keys c !! "user" with
  | None =>
      (http.StatusUnauthorized,
       inr {| Error := "unauthorized"; Message := "User not found in context" |})
  | Some user => (http.StatusOK, inl user)
  end.

End session.

(** ** [RequireAdmin] (in [src/backend/models/models.go]) *)

Module admin.
Import models firestore services gin handlers.

(** [None] is the panic of the type assertion on a key that holds
    something other than a user. *)
Definition RequireAdmin (c : Context) : option Flow :=
  match Keys c !! "user" with
  | None =>
      Some (Abort (fail http.StatusUnauthorized "unauthorized" "User not found in context"))
  | Some (KUser userObj) =>
      if decide (User_Role userObj ≠ "admin") then
        Some (Abort (fail http.StatusForbidden "forbidden" "Admin access required"))
      else Some (Next c)
  | Some (KString _) => None
  end.

End admin.

(** ** [GetImage] and [DeleteImage] (in [src/backend/models/models.go]) *)

Module blobs.
Import models firestore services gin handlers.

Definition StatusPermanentRedirect : Z := 308.

(** [c.Redirect(code, location)] *)
Definition Redirect (code : Z) (location : string) : Response :=
  {| StatusCode := code; ResponseHeader := [("Location", location)];
     ResponseBody := TextBody "" |}.

Definition publicURL (ss : StorageService) (filename : string) : string :=
  fmt.Sprintf "https://storage.googleapis.com/%s/%s" [BucketName ss; filename].

Definition GetImage (ss : StorageService) (c : Context) : Outcome StorageService :=
  let filename := Param c "filename" in
  Responded (Redirect StatusPermanentRedirect (publicURL ss filename)) ss.

(** [ObjectHandle.Delete]: an object that does not exist is an error. *)
Definition ObjectDelete (ss : StorageService) (name : string) : StorageService + error :=
  match Objects ss !! name with
  | None => inr NotFound
  | Some _ => inl {| BucketName := BucketName ss; Objects := delete name (Objects ss) |}
  end.

Definition DeleteImage (ss : StorageService) (c : Context) : Outcome StorageService :=
  let filename := Param c "filename" in
  match CurrentUser c with
  | None => Panicked ss
  | Some user =>
      if decide (User_Role user ≠ "admin") then
        Responded (fail http.StatusForbidden "forbidden" "Access denied") ss
      else
        match ObjectDelete ss filename with
        | inr _ =>
            Responded (fail http.StatusInternalServerError "delete_failed"
                            "Failed to delete image") ss
        | inl ss' => Responded (ok NoData "Image deleted successfully") ss'
        end
  end.

End blobs.

(** ** [CreateField] ([src/backend/handlers/fields.go]) *)

Module fieldcreate.
Import models firestore services gin handlers.

Record CreateFieldRequest : Type := {
  Req_Name : string;
  Req_Location : string;
  Req_RiceVariety : string;
  Req_TentativeDate : string;
  Req_Coordinates : Location;
  Req_Area : Z
}.

Definition optional_location (body : gmap string Any) (k : string) : option Location :=
  match body !! k with
  | None | Some VNull => Some {| Latitude := 0; Longitude := 0 |}
  | Some (VMap m) =>
      la ← part_002.optional_float m "latitude";
      lo ← part_002.optional_float m "longitude";
      Some {| Latitude := la; Longitude := lo |}
  | _ => None
  end.

Definition optional_area (body : gmap string Any) (k : string) : option Z :=
  match body !! k with
  | None | Some VNull => Some 0
  | Some (VFloat b) => Some b
  | _ => None
  end.

(** [c.ShouldBindJSON(&req)] for [models.CreateFieldRequest]. *)
Definition bind (body : gmap string Any) : option CreateFieldRequest :=
  name ← part_002.required_string body "name";
  location ← part_002.required_string body "location";
  variety ← part_002.optional_string body "rice_variety";
  tentative ← part_002.optional_string body "tentative_date";
  coordinates ← optional_location body "coordinates";
  area ← optional_area body "area";
  Some {| Req_Name := name; Req_Location := location; Req_RiceVariety := variety;
          Req_TentativeDate := tentative; Req_Coordinates := coordinates;
          Req_Area := area |}.

Definition newField (user : User) (req : CreateFieldRequest) (id : string)
    (t1 t2 : time.Time) : Field :=
  {| Field_ID := id;
     Field_Name := Req_Name req;
     Field_Location := Req_Location req;
     Field_RiceVariety := Req_RiceVariety req;
     Field_TentativeDate := Req_TentativeDate req;
     Field_Coordinates := Req_Coordinates req;
     Field_Area := Req_Area req;
     Field_OwnerID := User_ID user;
     Field_CreatedAt := t1;
     Field_UpdatedAt := t2 |}.

(** [CreateField]; [id] is what [utils.GenerateID()] returned, [t1] and
    [t2] the two readings of [time.Now()]. *)
Definition CreateField (fs : FirestoreService) (id : string) (t1 t2 : time.Time)
    (c : Context) : Outcome FirestoreService :=
  match JSONBody c ≫= bind with
  | None => Responded (fail http.StatusBadRequest "invalid_request" bind_error) fs
  | Some req =>
      match CurrentUser c with
      | None => Panicked fs
      | Some user =>
          let field := newField user req id t1 t2 in
          let fs' :=
            with_Fields fs (DocSet (Fields fs) (Field_ID field) (Field_doc field)) in
          Responded
            (JSON http.StatusCreated
               (SuccessBody {| Success := true; Data_ := OneField field;
                               Message_ := "Field created successfully" |})) fs'
      end
  end.

End fieldcreate.

(** ** The analytics handler ([src/backend/handlers/analytics.go])

    [GetTrends] and [GetReports] build their queries with range filters on
    created-at, from [AddDate] on the local clock and from [time.Parse];
    the dashboard and the three report generators, which work on the
    documents a query returned, are modelled. *)

Module analytics.
Import models firestore services gin handlers.

(** [m[k]++] on a [map[string]int]: a missing key reads as 0. *)
Definition incr (k : string) (m : gmap string Z) : gmap string Z :=
  <[k := wrap64 (default 0 (m !! k) + 1)]> m.

(** [for _, condition := range conditions { m[condition]++ }] *)
Definition incr_all (ks : list string) (m : gmap string Z) : gmap string Z :=
  foldl (fun m k => incr k m) m ks.

Record DashboardData : Type := {
  TotalSubmissions : Z;
  SubmissionsByStatus : gmap string Z;
  SubmissionsByStage : gmap string Z;
  RecentSubmissions : list Submission;
  LastUpdated : time.Time
}.

(** The three variables the loop of [GetDashboardData] updates. *)
Record Counters : Type := {
  totalSubmissions : Z;
  submissionsByStatus : gmap string Z;
  submissionsByStage : gmap string Z
}.

Definition count (n : Counters) (doc : Doc) : Counters :=
  let submission := Submission_DataTo doc in
  {| totalSubmissions := wrap64 (totalSubmissions n + 1);
     submissionsByStatus := incr (Status submission) (submissionsByStatus n);
     submissionsByStage := incr (GrowthStage submission) (submissionsByStage n) |}.

(** [GetDashboardData]; [now] is its reading of [time.Now()].  [None] is
    the panic of the type assertion on the caller. *)
Definition GetDashboardData (fs : FirestoreService) (now : time.Time) (c : Context)
  : option (Z * DashboardData) :=
  match CurrentUser c with
  | None => None
  | Some user =>
      let submissionsQuery := CollectionQuery (Submissions fs) in
      let submissionsQuery :=
        if decide (User_Role user ≠ "admin")
        then Where submissionsQuery "user_id" (User_ID user) else submissionsQuery in
      let n :=
        foldl count
              {| totalSubmissions := 0; submissionsByStatus := ∅; submissionsByStage := ∅ |}
              (GetAll submissionsQuery) in
      let recentQuery := Limit (OrderByDesc submissionsQuery "created_at") 5 in
      let recentDocs := GetAll recentQuery in
      let recentSubmissions := Submission_DataTo <$> recentDocs in
      Some (http.StatusOK,
            {| TotalSubmissions := totalSubmissions n;
               SubmissionsByStatus := submissionsByStatus n;
               SubmissionsByStage := submissionsByStage n;
               RecentSubmissions := recentSubmissions;
               LastUpdated := now |})
  end.

Record SummaryReport : Type := {
  total_submissions : Z;
  status_distribution : gmap string Z;
  stage_distribution : gmap string Z;
  condition_frequency : gmap string Z;
  summary_generated_at : time.Time
}.

(** The three maps the loop of [generateSummaryReport] updates. *)
Record Distribution : Type := {
  statusCounts : gmap string Z;
  stageCounts : gmap string Z;
  conditionCounts : gmap string Z
}.

Definition tally (d : Distribution) (doc : Doc) : Distribution :=
  let submission := Submission_DataTo doc in
  {| statusCounts := incr (Status submission) (statusCounts d);
     stageCounts := incr (GrowthStage submission) (stageCounts d);
     conditionCounts := incr_all (PlantConditions submission) (conditionCounts d) |}.

Definition generateSummaryReport (docs : list Doc) (now : time.Time) : SummaryReport :=
  let totalSubmissions := Z.of_nat (length docs) in
  let d := foldl tally {| statusCounts := ∅; stageCounts := ∅; conditionCounts := ∅ |} docs in
  {| total_submissions := totalSubmissions;
     status_distribution := statusCounts d;
     stage_distribution := stageCounts d;
     condition_frequency := conditionCounts d;
     summary_generated_at := now |}.

Record DetailedReport : Type := {
  submissions : list Submission;
  total_count : Z;
  detailed_generated_at : time.Time
}.

Definition generateDetailedReport (docs : list Doc) (now : time.Time) : DetailedReport :=
  let submissions := Submission_DataTo <$> docs in
  {| submissions := submissions;
     total_count := Z.of_nat (length submissions);
     detailed_generated_at := now |}.

(** The entry of one field in the field analysis. *)
Record FieldEntry : Type := {
  submission_count : Z;
  stages : gmap string Z;
  conditions : gmap string Z;
  latest_date : time.Time
}.

Record FieldAnalysisReport : Type := {
  field_analysis : gmap string FieldEntry;
  total_fields : Z;
  analysis_generated_at : time.Time
}.

(** One iteration of the loop of [generateFieldAnalysisReport]: the entry
    of the submission's field is created when it is missing, then updated
    in place. *)
Definition visit (fieldData : gmap string FieldEntry) (doc : Doc) : gmap string FieldEntry :=
  let submission := Submission_DataTo doc in
  let data :=
    match fieldData !! FieldID submission with
    | None => {| submission_count := 0; stages := ∅; conditions := ∅;
                 latest_date := Date submission |}
    | Some data => data
    end in
  <[FieldID submission :=
      {| submission_count := wrap64 (submission_count data + 1);
         stages := incr (GrowthStage submission) (stages data);
         conditions := incr_all (PlantConditions submission) (conditions data);
         latest_date :=
           if time.After (Date submission) (latest_date data) then Date submission
           else latest_date data |}]> fieldData.

Definition generateFieldAnalysisReport (docs : list Doc) (now : time.Time)
  : FieldAnalysisReport :=
  let fieldData := foldl visit ∅ docs in
  {| field_analysis := fieldData;
     total_fields := Z.of_nat (size fieldData);
     analysis_generated_at := now |}.

Inductive Report : Type :=
| Summary (r : SummaryReport)
| Detailed (r : DetailedReport)
| FieldAnalysis (r : FieldAnalysisReport).

(** The [switch reportType] of [GetReports]. *)
Definition report (reportType : string) (docs : list Doc) (now : time.Time) : Report :=
  if decide (reportType = "summary") then Summary (generateSummaryReport docs now)
  else if decide (reportType = "detailed") then Detailed (generateDetailedReport docs now)
  else if decide (reportType = "field_analysis")
       then FieldAnalysis (generateFieldAnalysisReport docs now)
  else Summary (generateSummaryReport docs now).

End analytics.

(** ** The router ([src/unnamed/part_005], [setupRouter]) *)

Module router.
Import models firestore services gin handlers.

(** A route of the group [protected], which uses [RequireAuth()]: gin runs
    the gate, and runs the route's handler on the gate's context unless the
    gate aborted.  [s] is the state the handler works on. *)
Definition protected `{L : jwt.Library} {S : Type} (jwtSecret : string)
    (fs : FirestoreService) (now : time.Time) (handler : Context -> Outcome S)
    (s : S) (c : Context) : Outcome S :=
  match middleware.RequireAuth jwtSecret fs now c with
  | Abort r => Responded r s
  | Next c' => handler c'
  end.

End router.

(** ** Statements about the rest of the backend *)

Module more.
Import models firestore services gin handlers.

(** The handler answered (it did not panic). *)
Definition responds {S : Type} (o : Outcome S) : Prop :=
  ∃ r s, o = Responded r s.

(** The response of a handler that answered. *)
Definition response {S : Type} (o : Outcome S) : option Response :=
  match o with
  | Responded r _ => Some r
  | Panicked _ => None
  end.

(** The stored submissions a caller's queries range over: all of them for
    an admin, and for everyone else those whose user id is the caller's. *)
Definition visible (fs : FirestoreService) (caller : User) : list Doc :=
  filter (fun d => User_Role caller = "admin"
                   ∨ field_is d ("user_id", User_ID caller) = true)
         (map_to_list (Submissions fs)).*2.

(** The sum of the counts of a [map[string]int]. *)
Definition total (m : gmap string Z) : Z :=
  map_fold (fun _ v acc => v + acc) 0 m.

(** How often [k] occurs in a list of keys. *)
Definition occurrences (k : string) (keys : list string) : Z :=
  Z.of_nat (length (filter (fun x => x = k) keys)).

(** A list of instants with the latest first. *)
Definition newest_first (l : list time.Time) : Prop :=
  ∀ i j a b, l !! i = Some a -> l !! j = Some b -> (i < j)%nat -> b ≤ a.

Fixpoint descending (l : list time.Time) : Prop :=
  match l with
  | [] => True
  | x :: r => (∀ y, y ∈ r -> y ≤ x) ∧ descending r
  end.

(** The entry of a field, against the submissions made on that field. *)
Definition describes (e : analytics.FieldEntry) (l : list Submission) : Prop :=
  l ≠ []
  ∧ analytics.submission_count e = Z.of_nat (length l)
  ∧ (∀ k, default 0 (analytics.stages e !! k) = occurrences k (GrowthStage <$> l))
  ∧ (∀ s, s ∈ l -> Date s ≤ analytics.latest_date e)
  ∧ (∃ s, s ∈ l ∧ analytics.latest_date e = Date s).

End more.
(** * Concrete requests and stores used as instances *)

Module fixtures.
Import models firestore services gin.

Definition short_upload : Context :=
  {| RequestHeader := ∅; Keys := ∅; Params := ∅; QueryValues := ∅;
     PostFormValues := {["submission_id" := "abc"]};
     FormFiles := {["image" := {| Filename := "leaf.png"; ContentType := "image/png";
                                   Content := "bytes" |}]};
     JSONBody := None |}.

Definition empty_store : FirestoreService :=
  {| Users := ∅; Submissions := ∅; Fields := ∅ |}.

Definition dev_bucket : StorageService :=
  {| BucketName := "rice-monitor-images-dev"; Objects := ∅ |}.


Definition alice : User :=
  {| User_ID := "u-1"; User_Email := "a@example.com"; User_Name := "Alice";
     User_Picture := ""; User_Role := "observer";
     User_CreatedAt := 1700000000 * time.Second;
     User_UpdatedAt := 1700000000 * time.Second;
     User_LastLoginAt := 1700000000 * time.Second |}.

Definition bob : User :=
  {| User_ID := "u-2"; User_Email := "b@example.com"; User_Name := "Bob";
     User_Picture := ""; User_Role := "researcher";
     User_CreatedAt := 1700000000 * time.Second;
     User_UpdatedAt := 1700000000 * time.Second;
     User_LastLoginAt := 1700000000 * time.Second |}.

Definition root : User :=
  {| User_ID := "u-0"; User_Email := "root@example.com"; User_Name := "Root";
     User_Picture := ""; User_Role := "admin";
     User_CreatedAt := 1700000000 * time.Second;
     User_UpdatedAt := 1700000000 * time.Second;
     User_LastLoginAt := 1700000000 * time.Second |}.

Definition no_traits : TraitMeasurements :=
  {| CulmLength := 0; PanicleLength := 0; PaniclesPerHill := 0; HillsObserved := 0 |}.

(** A field owned by Bob. *)
Definition plot1 : Field :=
  {| Field_ID := "f-1"; Field_Name := "Plot 1"; Field_Location := "North";
     Field_RiceVariety := "IR64"; Field_TentativeDate := "";
     Field_Coordinates := {| Latitude := 0; Longitude := 0 |}; Field_Area := 0;
     Field_OwnerID := "u-2";
     Field_CreatedAt := 1700000000 * time.Second;
     Field_UpdatedAt := 1700000000 * time.Second |}.

(** A submission of Alice's on Bob's field. *)
Definition obs1 : Submission :=
  {| ID := "s-1"; UserID := "u-1"; FieldID := "f-1";
     Date := 1704153600 * time.Second; GrowthStage := "Seedling";
     PlantConditions := ["Healthy"]; Traits := no_traits; Notes := "";
     ObserverName := "Ann"; Images := []; Status := "submitted";
     CreatedAt := 1704153600 * time.Second; UpdatedAt := 1704153600 * time.Second |}.

(** A submission of Alice's whose field id resolves to nothing. *)
Definition obs2 : Submission :=
  {| ID := "s-2"; UserID := "u-1"; FieldID := "f-gone";
     Date := 1704240000 * time.Second; GrowthStage := "Tillering";
     PlantConditions := []; Traits := no_traits; Notes := "";
     ObserverName := "Ann"; Images := []; Status := "submitted";
     CreatedAt := 1704240000 * time.Second; UpdatedAt := 1704240000 * time.Second |}.

Definition store1 : FirestoreService :=
  {| Users := {["u-1" := User_doc alice]} ∪ {["u-2" := User_doc bob]}
              ∪ {["u-0" := User_doc root]};
     Submissions := {["s-1" := Submission_doc obs1]};
     Fields := {["f-1" := Field_doc plot1]} |}.

Definition store2 : FirestoreService :=
  {| Users := Users store1;
     Submissions := {["s-2" := Submission_doc obs2]};
     Fields := Fields store1 |}.

(** A request on the path parameter [id], made by [u] once the
    authorization gate has let it through. *)
Definition request_as (u : User) (id : string) (body : option (gmap string Any)) : Context :=
  {| RequestHeader := ∅; Keys := {["user" := KUser u]};
     Params := {["id" := id]}; QueryValues := ∅;
     PostFormValues := ∅; FormFiles := ∅; JSONBody := body |}.

(** A create payload that also tries to choose the id, the owner and the
    status. *)
Definition create_body : gmap string Any :=
  list_to_map
    [("field_id", VString "f-1"); ("date", VTime (1704153600 * time.Second));
     ("growth_stage", VString "Seedling"); ("observer_name", VString "Ann");
     ("id", VString "chosen-by-caller"); ("user_id", VString "u-2");
     ("status", VString "approved")].

Definition create_req : CreateSubmissionRequest :=
  {| Req_FieldID := "f-1"; Req_Date := 1704153600 * time.Second;
     Req_GrowthStage := "Seedling"; Req_PlantConditions := [];
     Req_Traits := no_traits; Req_Notes := ""; Req_ObserverName := "Ann";
     Req_Images := [] |}.

(** An update that tries to overwrite every protected field. *)
Definition hostile_update : gmap string Any :=
  list_to_map
    [("id", VString "s-9"); ("user_id", VString "u-2"); ("owner_id", VString "u-1");
     ("created_at", VTime 0); ("updated_at", VTime 0); ("notes", VString "dry")].

(** A stand-in for the token library, to run the token service on concrete
    inputs: the signature is the key next to the claims' identity, and the
    serialisation writes the segments between bars (sound for segments that
    hold no bar). *)
Definition alg_name (m : jwt.SigningMethod) : string :=
  match m with
  | jwt.SigningMethodHS256 => "HS256"
  | jwt.SigningMethodHS384 => "HS384"
  | jwt.SigningMethodHS512 => "HS512"
  | jwt.SigningMethodRS256 => "RS256"
  | jwt.SigningMethodNone => "none"
  end.

Definition alg_of_name (s : string) : option jwt.SigningMethod :=
  if decide (s = "HS256") then Some jwt.SigningMethodHS256
  else if decide (s = "HS384") then Some jwt.SigningMethodHS384
  else if decide (s = "HS512") then Some jwt.SigningMethodHS512
  else if decide (s = "RS256") then Some jwt.SigningMethodRS256
  else if decide (s = "none") then Some jwt.SigningMethodNone
  else None.

Definition date_segment (t : option time.Time) : string :=
  match t with
  | Some t => time.digits 20 t
  | None => ""
  end.

Definition date_of_segment (s : string) : option (option time.Time) :=
  match s with
  | EmptyString => Some None
  | _ => Some <$> strconv.parse_digits s 0
  end.

Definition toy_sign (m : jwt.SigningMethod) (key : string) (c : Claims) : string :=
  alg_name m +:+ "#" +:+ key +:+ "#" +:+ Claims_UserID c +:+ "#" +:+ Claims_Email c
  +:+ "#" +:+ Claims_Role c +:+ "#" +:+ date_segment (ExpiresAt (Registered c))
  +:+ "#" +:+ date_segment (IssuedAt (Registered c)).

Definition toy_encode (t : jwt.Token) : string :=
  let c := jwt.TokenClaims t in
  gostrings.Join
    [alg_name (jwt.Method t); Claims_UserID c; Claims_Email c; Claims_Role c;
     date_segment (ExpiresAt (Registered c)); date_segment (IssuedAt (Registered c));
     jwt.Signature t] "|".

Definition toy_decode (s : string) : option jwt.Token :=
  match gostrings.Split s "|" with
  | [alg; uid; email; role; exp; iat; sig] =>
      m ← alg_of_name alg;
      e ← date_of_segment exp;
      i ← date_of_segment iat;
      Some {| jwt.Method := m;
              jwt.TokenClaims :=
                {| Claims_UserID := uid; Claims_Email := email; Claims_Role := role;
                   Registered := {| ExpiresAt := e; IssuedAt := i |} |};
              jwt.Signature := sig |}
  | _ => None
  end.

Definition toy_library : jwt.Library :=
  {| jwt.Sign := toy_sign; jwt.Encode := toy_encode; jwt.Decode := toy_decode |}.

(** Clock readings of one login, in nanoseconds: 2024-01-02 00:00:00 UTC
    and a little after. *)
Definition t0 : time.Time := 1704153600 * time.Second.

(** Alice's access token issued at [t0] under the key "s3cret", and the
    same claims signed under another key. *)
Definition alice_token (key : string) : jwt.Token :=
  {| jwt.Method := jwt.SigningMethodHS256;
     jwt.TokenClaims := utils.accessClaims alice t0 t0;
     jwt.Signature := toy_sign jwt.SigningMethodHS256 key (utils.accessClaims alice t0 t0) |}.

(** A stand-in for Google's verifier: the assertion "alice" verifies as
    Alice's email, "carol" as an email the store has not seen. *)
Definition toy_validator : idtoken.Validator :=
  {| idtoken.Validate := fun token audience =>
       if decide (token = "alice") then
         Some (list_to_map [("email", VString "a@example.com"); ("name", VString "Alice")])
       else if decide (token = "carol") then
         Some (list_to_map [("email", VString "c@example.com"); ("name", VString "Carol")])
       else None |}.

Definition login_env : auth.LoginEnv :=
  {| auth.new_id := "u-3";
     auth.t_created := t0; auth.t_updated := t0 + 1; auth.t_first_login := t0 + 2;
     auth.t_access_exp := t0 + 3; auth.t_access_iat := t0 + 4;
     auth.t_refresh_exp := t0 + 5; auth.t_refresh_iat := t0 + 6;
     auth.t_last_login := t0 + 7; auth.t_stamp := t0 + 8 |}.

Definition login_request (assertion : string) : Context :=
  {| RequestHeader := ∅; Keys := ∅; Params := ∅; QueryValues := ∅;
     PostFormValues := ∅; FormFiles := ∅;
     JSONBody := Some {["token" := VString assertion]} |}.

Definition carol : User :=
  {| User_ID := "u-3"; User_Email := "c@example.com"; User_Name := "Carol";
     User_Picture := ""; User_Role := "observer";
     User_CreatedAt := t0; User_UpdatedAt := t0 + 1; User_LastLoginAt := t0 + 2 |}.

(** Two uploads to the submission s-1 and a schedule in which both read
    before either commits, so that the second has to run again. *)
Definition two_uploads : list images.Upload :=
  [{| images.imageURL := "https://storage.googleapis.com/b/s-1/a.png"; images.stamp := t0 |};
   {| images.imageURL := "https://storage.googleapis.com/b/s-1/b.png"; images.stamp := t0 + 1 |}].

Definition doc_a : Doc :=
  images.appended (Submission_doc obs1) "https://storage.googleapis.com/b/s-1/a.png" t0.

Definition doc_ab : Doc :=
  images.appended doc_a "https://storage.googleapis.com/b/s-1/b.png" (t0 + 1).

Definition contended : list images.Shared :=
  [{| images.document := Submission_doc obs1; images.version := 0;
      images.attempts := [images.HasRead (Submission_doc obs1) 0; images.Idle] |};
   {| images.document := Submission_doc obs1; images.version := 0;
      images.attempts := [images.HasRead (Submission_doc obs1) 0;
                          images.HasRead (Submission_doc obs1) 0] |};
   {| images.document := doc_a; images.version := 1;
      images.attempts := [images.Committed; images.HasRead (Submission_doc obs1) 0] |};
   {| images.document := doc_a; images.version := 1;
      images.attempts := [images.Committed; images.Idle] |};
   {| images.document := doc_a; images.version := 1;
      images.attempts := [images.Committed; images.HasRead doc_a 1] |};
   {| images.document := doc_ab; images.version := 2;
      images.attempts := [images.Committed; images.Committed] |}].

Definition contended_end : images.Shared :=
  {| images.document := doc_ab; images.version := 2;
     images.attempts := [images.Committed; images.Committed] |}.

(** A request carrying Alice's access token as bearer credential. *)
Definition bearer_request : Context :=
  {| RequestHeader := {["Authorization" := "Bearer " +:+ toy_encode (alice_token "s3cret")]};
     Keys := ∅; Params := ∅; QueryValues := ∅; PostFormValues := ∅; FormFiles := ∅;
     JSONBody := None |}.

(** An update of the notes alone. *)
Definition notes_update : gmap string Any := {["notes" := VString "dry"]}.

(** A submission of Alice's under an id of uuid length, the store holding
    it, an upload of a picture to it, and an admin's request to delete the
    stored object. *)
Definition obs3 : Submission :=
  {| ID := "3f2a9c1e-0000-4000-8000-000000000001"; UserID := "u-1"; FieldID := "f-1";
     Date := t0; GrowthStage := "Tillering"; PlantConditions := []; Traits := no_traits;
     Notes := ""; ObserverName := "Alice"; Images := []; Status := "submitted";
     CreatedAt := t0; UpdatedAt := t0 |}.

Definition store3 : FirestoreService :=
  {| Users := Users store1;
     Submissions := {["3f2a9c1e-0000-4000-8000-000000000001" := Submission_doc obs3]};
     Fields := Fields store1 |}.

Definition leaf : FileHeader :=
  {| Filename := "leaf.png"; ContentType := "image/png"; Content := "bytes" |}.

Definition upload_request : Context :=
  {| RequestHeader := ∅; Keys := {["user" := KUser bob]}; Params := ∅; QueryValues := ∅;
     PostFormValues := {["submission_id" := "3f2a9c1e-0000-4000-8000-000000000001"]};
     FormFiles := {["image" := leaf]};
     JSONBody := None |}.

Definition leaf_name : string :=
  "3f2a9c1e-0000-4000-8000-000000000001/img-1_20240102_000000.png".

Definition delete_request : Context :=
  {| RequestHeader := ∅; Keys := {["user" := KUser root]};
     Params := {["filename" := leaf_name]}; QueryValues := ∅;
     PostFormValues := ∅; FormFiles := ∅; JSONBody := None |}.

(** A create-field payload that also tries to choose the id and the owner. *)
Definition field_body : gmap string Any :=
  list_to_map
    [("name", VString "North plot"); ("location", VString "Gazipur");
     ("id", VString "chosen-by-caller"); ("owner_id", VString "u-2")].

Definition field_req : fieldcreate.CreateFieldRequest :=
  {| fieldcreate.Req_Name := "North plot"; fieldcreate.Req_Location := "Gazipur";
     fieldcreate.Req_RiceVariety := ""; fieldcreate.Req_TentativeDate := "";
     fieldcreate.Req_Coordinates := {| Latitude := 0; Longitude := 0 |};
     fieldcreate.Req_Area := 0 |}.

(** Alice's refresh token issued at [t0], and a request that sends it as
    bearer token. *)
Definition alice_refresh : jwt.Token :=
  {| jwt.Method := jwt.SigningMethodHS256;
     jwt.TokenClaims := utils.refreshClaims alice t0 t0;
     jwt.Signature :=
       toy_sign jwt.SigningMethodHS256 "s3cret" (utils.refreshClaims alice t0 t0) |}.

Definition refresh_as_bearer : Context :=
  {| RequestHeader := {["Authorization" := "Bearer " +:+ toy_encode alice_refresh]};
     Keys := ∅; Params := ∅; QueryValues := ∅; PostFormValues := ∅; FormFiles := ∅;
     JSONBody := None |}.

(** A request that sends [token] as bearer token. *)
Definition bearer (token : string) : Context :=
  {| RequestHeader := {["Authorization" := "Bearer " +:+ token]};
     Keys := ∅; Params := ∅; QueryValues := ∅; PostFormValues := ∅; FormFiles := ∅;
     JSONBody := None |}.

End fixtures.

(** * Properties *)

Import models firestore services gin handlers fixtures.

(** ** Library models on concrete inputs *)

Example Format_date_2024 :
  time.Format_date (1704153600 * time.Second + 5) = "2024-01-02".
Proof. reflexivity. Qed.

Example Format_stamp_2024 :
  time.Format_stamp (1709210096 * time.Second) = "20240229_123456".
Proof. reflexivity. Qed.

Example Format_date_zero : time.Format_date time.zero = "0001-01-01".
Proof. reflexivity. Qed.

Example Sprintf_missing :
  fmt.Sprintf "%s,%s" ["a"] = "a,%!s(MISSING)".
Proof. reflexivity. Qed.

Example Split_commas : gostrings.Split "a,,b" "," = ["a"; ""; "b"].
Proof. reflexivity. Qed.

Example Ext_png : filepath.Ext "dir.d/leaf.tar.png" = ".png".
Proof. reflexivity. Qed.

Example Ext_none : filepath.Ext "dir.d/leaf" = "".
Proof. reflexivity. Qed.

Example Atoi_examples :
  strconv.Atoi_value "20" = 20 ∧ strconv.Atoi_value "-3" = -3 ∧ strconv.Atoi_value "x1" = 0.
Proof. repeat split; reflexivity. Qed.

(** ** Image upload: the [temp_] prefix test *)

Lemma slice_to_short (s : string) (n : nat) :
  (String.length s < n)%nat -> gostrings.slice_to s n = None.
Proof.
  intros Hlen. unfold gostrings.slice_to.
  destruct (decide (n ≤ String.length s)%nat); [lia | reflexivity].
Qed.

Lemma slice_to_long (s : string) (n : nat) :
  (n ≤ String.length s)%nat -> gostrings.slice_to s n = Some (substring 0 n s).
Proof.
  intros Hlen. unfold gostrings.slice_to.
  destruct (decide (n ≤ String.length s)%nat); [reflexivity | lia].
Qed.

(** C10.  An upload whose [submission_id] is not empty and whose file
    passes the extension check stores the object and then evaluates
    [submissionID[:5]]: with fewer than five bytes the handler panics and
    sends no response, with five or more it responds. *)
Theorem UploadImage_short_id_panics
    (ss : StorageService) (fs : FirestoreService) (id : string) (t1 t2 : time.Time)
    (c : Context) (header : FileHeader) :
  PostForm c "submission_id" ≠ "" ->
  FormFiles c !! "image" = Some header ->
  utils.ValidateFileType (Filename header) = true ->
  ((String.length (PostForm c "submission_id") < 5)%nat ->
   ∃ ss', images.UploadImage (ss, fs) id t1 t2 c = Panicked (ss', fs))
  ∧ ((5 ≤ String.length (PostForm c "submission_id"))%nat ->
     ∃ r st', images.UploadImage (ss, fs) id t1 t2 c = Responded r st').
Proof.
  intros Hid Hfile Hext. unfold images.UploadImage.
  destruct (decide (PostForm c "submission_id" = "")) as [Heq | _]; [done |].
  rewrite Hfile, Hext. cbn [negb images.Write].
  destruct (decide (PostForm c "submission_id" ≠ "")) as [_ | Hno]; [| done].
  split; intros Hlen.
  - rewrite (slice_to_short _ 5 Hlen). eauto.
  - rewrite (slice_to_long _ 5 Hlen).
    destruct (decide (substring 0 5 (PostForm c "submission_id") ≠ "temp_")); [| eauto].
    destruct (images.addImageToSubmission _ _ _ _); eauto.
Qed.

Lemma UploadImage_short_id_witness :
  ∃ ss', images.UploadImage (dev_bucket, empty_store) "u-1" 0 0 short_upload
         = Panicked (ss', empty_store).
Proof.
  refine (proj1 (UploadImage_short_id_panics dev_bucket empty_store "u-1" 0 0 short_upload
                   {| Filename := "leaf.png"; ContentType := "image/png"; Content := "bytes" |}
                   _ _ _) _).
  - vm_compute. discriminate.
  - reflexivity.
  - reflexivity.
  - vm_compute. lia.
Defined.

(** ** CSV export *)

Lemma part_002_row (s : Submission) :
  part_002.row s =
    ID s +:+ "," +:+ time.Format_date (Date s) +:+ "," +:+ GrowthStage s +:+ ","
    +:+ ObserverName s +:+ "," +:+ Status s +:+ csv.nl.
Proof. reflexivity. Qed.

Lemma submissions_go_row (s : Submission) :
  submissions_go.row s =
    ID s +:+ "," +:+ time.Format_date (Date s) +:+ "," +:+ GrowthStage s +:+ ","
    +:+ ObserverName s +:+ "," +:+ Status s +:+ "," +:+ "%!s(MISSING)" +:+ csv.nl.
Proof. reflexivity. Qed.

(** C3.  Every row either copy of [ExportSubmissions] prints is made of
    id, date, growth stage, observer and status, in that order: five values
    in one copy, and in the other (six verbs for five operands) a sixth
    that is the formatter's missing-operand mark.  No row holds a location,
    although the header names six columns with Location third.  The export
    of the one stored submission s-1 shows it. *)
Theorem ExportSubmissions_row_has_no_location :
  (∀ s, part_002.row s
        = ID s +:+ "," +:+ time.Format_date (Date s) +:+ "," +:+ GrowthStage s +:+ ","
          +:+ ObserverName s +:+ "," +:+ Status s +:+ csv.nl)
  ∧ (∀ s, submissions_go.row s
          = ID s +:+ "," +:+ time.Format_date (Date s) +:+ "," +:+ GrowthStage s +:+ ","
            +:+ ObserverName s +:+ "," +:+ Status s +:+ "," +:+ "%!s(MISSING)" +:+ csv.nl)
  ∧ (∃ text,
      part_002.ExportSubmissions store1 (request_as alice "" None)
      = Responded {| StatusCode := 200;
                     ResponseHeader :=
                       [("Content-Type", "text/csv");
                        ("Content-Disposition", "attachment; filename=submissions.csv")];
                     ResponseBody := TextBody text |} store1
      ∧ csv.columns <$> csv.lines text
        = [["ID"; "Date"; "Location"; "Growth Stage"; "Observer"; "Status"];
           ["s-1"; "2024-01-02"; "Seedling"; "Ann"; "submitted"]])
  ∧ (∃ text,
      submissions_go.ExportSubmissions store1 (request_as alice "" None)
      = Responded {| StatusCode := 200;
                     ResponseHeader :=
                       [("Content-Type", "text/csv");
                        ("Content-Disposition", "attachment; filename=submissions.csv")];
                     ResponseBody := TextBody text |} store1
      ∧ csv.columns <$> csv.lines text
        = [["ID"; "Date"; "Location"; "Growth Stage"; "Observer"; "Status"];
           ["s-1"; "2024-01-02"; "Seedling"; "Ann"; "submitted"; "%!s(MISSING)"]]).
Proof.
  split; [exact part_002_row |]. split; [exact submissions_go_row |].
  split; eexists; split; try (vm_compute; reflexivity).
Qed.

(** ** Documents and structs *)

Lemma get_strings_value (d : Doc) (k : string) (l : list string) :
  d !! k = Some (strings_value l) -> get_strings d k = l.
Proof.
  intros Hk. unfold get_strings, strings_value in *. rewrite Hk. clear Hk.
  induction l as [| x l IH]; [reflexivity | cbn; by rewrite IH].
Qed.

Lemma Submission_DataTo_doc (s : Submission) :
  Submission_DataTo (Submission_doc s) = s.
Proof.
  destruct s as [i u f d g pc [cl pl pph ho] n o im st ca ua].
  unfold Submission_DataTo.
  rewrite (get_strings_value _ "plant_conditions" pc) by reflexivity.
  rewrite (get_strings_value _ "images" im) by reflexivity.
  reflexivity.
Qed.

Lemma Field_DataTo_doc (f : Field) : Field_DataTo (Field_doc f) = f.
Proof. destruct f as [i n l r t [la lo] a o ca ua]. reflexivity. Qed.

Lemma User_DataTo_doc (u : User) : User_DataTo (User_doc u) = u.
Proof. destruct u. reflexivity. Qed.

(** ** Create Submission *)

(** A literal key is not among a list of other literal keys. *)
Ltac not_listed :=
  let H := fresh "Hin" in
  intros H;
  repeat (apply elem_of_cons in H as [H | H]; [discriminate H |]);
  by apply elem_of_nil in H.

(** The binder reads only the tagged keys of the request type. *)
Lemma bind_ignores (body : gmap string Any) (k : string) (v : Any) :
  k ∉ ["field_id"; "date"; "growth_stage"; "plant_conditions"; "trait_measurements";
       "notes"; "observer_name"; "images"] ->
  part_002.bind (<[k := v]> body) = part_002.bind body.
Proof.
  intros Hk. repeat (apply not_elem_of_cons in Hk as [? Hk]).
  unfold part_002.bind, part_002.required_string, part_002.required_time,
    part_002.optional_string, part_002.optional_strings, part_002.optional_traits.
  by rewrite !lookup_insert_ne.
Qed.



(** ** Update: protected fields *)

Lemma foldl_updates_lookup (l : list (string * Any)) (d : Doc) (k : string) :
  NoDup l.*1 ->
  foldl (fun acc u => <[Path u := Value u]> acc) d
        ((fun kv => {| Path := kv.1; Value := kv.2 |}) <$> l) !! k
  = match (list_to_map l : gmap string Any) !! k with
    | Some v => Some v
    | None => d !! k
    end.
Proof.
  revert d. induction l as [| [k1 v1] l IH]; intros d Hnd; [reflexivity |].
  apply NoDup_cons in Hnd as [Hk1 Hnd]. cbn.
  rewrite IH by done.
  destruct (decide (k1 = k)) as [-> | Hne].
  - rewrite lookup_insert_eq.
    rewrite (not_elem_of_list_to_map_1 l k) by done.
    by rewrite lookup_insert_eq.
  - rewrite !lookup_insert_ne by done. reflexivity.
Qed.

(** The field writes built from the entries of a map act as the map laid
    over the document. *)
Lemma apply_updates_lookup (d : Doc) (m : gmap string Any) (k : string) :
  apply_updates d (updates_of m) !! k
  = match m !! k with Some v => Some v | None => d !! k end.
Proof.
  unfold apply_updates, updates_of.
  rewrite foldl_updates_lookup by apply NoDup_fst_map_to_list.
  by rewrite list_to_map_to_list.
Qed.

(** What the write list of either update handler would leave of a
    document if its writes were applied one after the other, for the owner
    key of its collection. *)
Lemma protected_update_frame (owner_key : string) (t1 t2 : time.Time)
    (updateData doc : gmap string Any) :
  owner_key ∉ ["id"; "created_at"; "updated_at"] ->
  spec.update_frame owner_key t1 updateData doc
    (apply_updates doc
       ({| Path := "updated_at"; Value := VTime t2 |}
        :: updates_of (<["updated_at" := VTime t1]>
                         (delete "created_at" (delete owner_key (delete "id" updateData)))))).
Proof.
  intros Hkey. repeat (apply not_elem_of_cons in Hkey as [? Hkey]).
  unfold spec.update_frame. cbn [apply_updates foldl Path Value].
  change (foldl _ ?d ?l) with (apply_updates d l).
  repeat split.
  - rewrite apply_updates_lookup.
    rewrite lookup_insert_ne by done.
    destruct (decide (owner_key = "id")); [done |].
    by rewrite !lookup_delete_ne, lookup_delete_eq, lookup_insert_ne by done.
  - rewrite apply_updates_lookup.
    rewrite lookup_insert_ne by done.
    by rewrite lookup_delete_ne, lookup_delete_eq, lookup_insert_ne by done.
  - rewrite apply_updates_lookup.
    by rewrite lookup_insert_ne, lookup_delete_eq, lookup_insert_ne by done.
  - rewrite apply_updates_lookup. by rewrite lookup_insert_eq.
  - intros k Hk. repeat (apply not_elem_of_cons in Hk as [? Hk]).
    rewrite apply_updates_lookup.
    rewrite lookup_insert_ne, !lookup_delete_ne by done.
    destruct (updateData !! k); [done |]. by rewrite lookup_insert_ne.
Qed.


(** The write list both update handlers build names updated_at twice:
    once at its head and once among the entries of the map. *)
Lemma handler_updates_repeat (t1 t2 : time.Time) (m : gmap string Any) :
  repeats (Path <$> ({| Path := "updated_at"; Value := VTime t2 |}
                     :: updates_of (<["updated_at" := VTime t1]> m))) = true.
Proof.
  cbn [fmap list_fmap Path repeats]. apply orb_true_iff. left.
  apply bool_decide_eq_true_2. unfold updates_of.
  apply list_elem_of_fmap. exists {| Path := "updated_at"; Value := VTime t1 |}.
  split; [reflexivity |].
  apply list_elem_of_fmap. exists ("updated_at", VTime t1). split; [reflexivity |].
  apply elem_of_map_to_list, lookup_insert_eq.
Qed.

Lemma DocUpdate_handler_updates (c : Collection) (id : string) (t1 t2 : time.Time)
    (m : gmap string Any) :
  DocUpdate c id ({| Path := "updated_at"; Value := VTime t2 |}
                  :: updates_of (<["updated_at" := VTime t1]> m))
  = inr RepeatedPath.
Proof. unfold DocUpdate. by rewrite handler_updates_repeat. Qed.

Lemma UpdateSubmission_unchanged (fs : FirestoreService) (t1 t2 : time.Time) (c : Context) :
  spec.after (UpdateSubmission fs t1 t2 c) = fs.
Proof.
  unfold UpdateSubmission.
  destruct (CurrentUser c); [| done]. destruct (JSONBody c); [| done].
  destruct (DocGet _ _); [| done]. destruct (decide _); [done |].
  by rewrite DocUpdate_handler_updates.
Qed.

Lemma UpdateField_unchanged (fs : FirestoreService) (t1 t2 : time.Time) (c : Context) :
  spec.after (UpdateField fs t1 t2 c) = fs.
Proof.
  unfold UpdateField.
  destruct (CurrentUser c); [| done]. destruct (JSONBody c); [| done].
  destruct (getFieldByID _ _); [| done]. destruct (decide _); [done |].
  by rewrite DocUpdate_handler_updates.
Qed.

Lemma UpdateSubmission_entitled
    (fs : FirestoreService) (t1 t2 : time.Time) (c : Context) (user : User)
    (updateData doc : gmap string Any) :
  spec.authenticated c user ->
  JSONBody c = Some updateData ->
  Submissions fs !! Param c "id" = Some doc ->
  User_Role user = "admin" ∨ UserID (Submission_DataTo doc) = User_ID user ->
  UpdateSubmission fs t1 t2 c
  = Responded (fail 500 "internal_error" "Failed to update submission") fs.
Proof.
  intros Huser Hbody Hdoc Hmay.
  unfold UpdateSubmission, DocGet. rewrite Huser, Hbody, Hdoc.
  destruct (decide _) as [[Hrole Howner] | _]; [by destruct Hmay |].
  by rewrite DocUpdate_handler_updates.
Qed.

Lemma UpdateField_entitled
    (fs : FirestoreService) (t1 t2 : time.Time) (c : Context) (user : User)
    (updateData doc : gmap string Any) :
  spec.authenticated c user ->
  JSONBody c = Some updateData ->
  Fields fs !! Param c "id" = Some doc ->
  User_Role user = "admin" ∨ Field_OwnerID (Field_DataTo doc) = User_ID user ->
  UpdateField fs t1 t2 c
  = Responded (fail 500 "internal_error" "Failed to update field") fs.
Proof.
  intros Huser Hbody Hdoc Hmay.
  unfold UpdateField, getFieldByID, DocGet. rewrite Huser, Hbody, Hdoc.
  destruct (decide _) as [[Hrole Howner] | _]; [by destruct Hmay |].
  by rewrite DocUpdate_handler_updates.
Qed.

(** C2, where the code breaks it.  No call of [UpdateSubmission] or of
    [UpdateField] changes the store, so id, owner id and created-at do stay
    as they were; but neither is updated-at set nor any supplied field
    written.  The owner's update of the notes of submission s-1, and the
    owner's update of field f-1, are answered 500: the write list names
    updated_at twice and the client refuses it. *)
Theorem Update_writes_nothing :
  (∀ fs t1 t2 c, spec.after (UpdateSubmission fs t1 t2 c) = fs)
  ∧ (∀ fs t1 t2 c, spec.after (UpdateField fs t1 t2 c) = fs)
  ∧ UserID obs1 = User_ID alice
  ∧ UpdateSubmission store1 5 6 (request_as alice "s-1" (Some notes_update))
    = Responded (fail 500 "internal_error" "Failed to update submission") store1
  ∧ Field_OwnerID plot1 = User_ID bob
  ∧ UpdateField store1 5 6 (request_as bob "f-1" (Some notes_update))
    = Responded (fail 500 "internal_error" "Failed to update field") store1.
Proof.
  split; [apply UpdateSubmission_unchanged |].
  split; [apply UpdateField_unchanged |].
  split; [reflexivity |]. split.
  - by apply (UpdateSubmission_entitled store1 5 6 _ alice notes_update (Submission_doc obs1));
      [.. | right].
  - split; [reflexivity |].
    by apply (UpdateField_entitled store1 5 6 _ bob notes_update (Field_doc plot1));
      [.. | right].
Qed.



(** ** Listing *)

Lemma filter_no_wheres (l : list Doc) :
  filter (fun d => matches [] d = true) l = l.
Proof.
  induction l as [| d l IH]; [reflexivity |].
  rewrite filter_cons_True by reflexivity. by rewrite IH.
Qed.

Lemma GetAll_collection (c : Collection) :
  GetAll (CollectionQuery c) = (map_to_list c).*2.
Proof. unfold GetAll, CollectionQuery. cbn. apply filter_no_wheres. Qed.

(** C1, the part the code breaks.  [GetFields] returns every stored field
    to every caller: its response is the same for all contexts.  On the
    store where Bob owns the only field, Alice (role observer) is listed
    Bob's field, while reading that field by id is forbidden to her. *)
Theorem GetFields_lists_other_owners :
  (∀ fs c,
      GetFields fs c
      = Responded (ok (FieldList (Field_DataTo <$> (map_to_list (Fields fs)).*2)) "") fs)
  ∧ User_Role alice = "observer"
  ∧ Field_OwnerID plot1 = User_ID bob
  ∧ GetFields store1 (request_as alice "" None)
    = Responded (ok (FieldList [plot1]) "") store1
  ∧ GetField store1 (request_as alice "f-1" None)
    = Responded (fail 403 "forbidden" "Access denied") store1.
Proof.
  split.
  - intros fs c. unfold GetFields. by rewrite GetAll_collection.
  - repeat split; vm_compute; reflexivity.
Qed.

(** ** Dangling field references *)

Lemma join_resolves (fs : FirestoreService) (doc : Doc) (r : SubmissionResponse) :
  part_002.join fs doc = Some r ->
  Resp_Submission r = Submission_DataTo doc
  ∧ ∃ fieldDoc, Fields fs !! FieldID (Submission_DataTo doc) = Some fieldDoc
                ∧ Resp_Field r = Field_DataTo fieldDoc.
Proof.
  unfold part_002.join, DocGet.
  destruct (Fields fs !! FieldID (Submission_DataTo doc)) as [fieldDoc |] eqn:Hf;
    [| discriminate].
  intros [= <-]. eauto.
Qed.

Lemma join_dangling (fs : FirestoreService) (doc : Doc) :
  Fields fs !! FieldID (Submission_DataTo doc) = None -> part_002.join fs doc = None.
Proof. intros Hf. unfold part_002.join, DocGet. by rewrite Hf. Qed.




(** ** The authorization gate *)

Lemma strip_Some (p s t : string) : gostrings.strip p s = Some t <-> s = p +:+ t.
Proof.
  revert s. induction p as [| a p IH]; intros s; cbn.
  - split; [by intros [= ->] | by intros ->].
  - destruct s as [| b s]; [split; discriminate |].
    destruct (decide (a = b)) as [-> | Hne].
    + rewrite IH. split; [by intros -> | by intros [= ->]].
    + split; [discriminate | intros [= -> _]; done].
Qed.

Lemma length_append (a b : string) :
  String.length (a +:+ b) = (String.length a + String.length b)%nat.
Proof. induction a as [| x a IH]; [reflexivity | exact (f_equal S IH)]. Qed.

(** A non-empty prefix that was trimmed leaves a different string. *)
Lemma trimmed_differs (p t : string) : p ≠ "" -> t ≠ p +:+ t.
Proof.
  intros Hp Heq. apply (f_equal String.length) in Heq.
  rewrite length_append in Heq. destruct p; [done | cbn in Heq; lia].
Qed.


(** ** The token service *)

Lemma Truncate_le (t : time.Time) : time.Truncate t time.Second ≤ t.
Proof.
  unfold time.Truncate, time.Second.
  pose proof (Z.mod_pos_bound t 1000000000 ltac:(lia)). lia.
Qed.

Lemma ValidateToken_decoded `{L : jwt.Library} (jwtSecret tokenString : string)
    (token : jwt.Token) (now : time.Time) :
  jwt.Decode tokenString = Some token ->
  utils.ValidateToken jwtSecret tokenString now
  = if jwt.is_HMAC (jwt.Method token)
    then if jwt.Valid (Registered (jwt.TokenClaims token)) now
            && bool_decide (jwt.Sign (jwt.Method token) jwtSecret (jwt.TokenClaims token)
                            = jwt.Signature token)
         then inl (jwt.TokenClaims token)
         else inr "token is expired or signature is invalid"
    else inr "unexpected signing method".
Proof.
  intros Hdec. unfold utils.ValidateToken, jwt.ParseWithClaims, utils.keyFunc.
  rewrite Hdec. destruct (jwt.is_HMAC _); [| reflexivity].
  by destruct (_ && _).
Qed.

(** C4.  With the token library as a parameter: (1) the access token
    [GenerateTokens] issues for a user, once the parser reads back what was
    serialised, validates at every instant from its issue up to its expiry
    one hour later, and the claims returned carry the user's id, email and
    role; (2) a token whose signature was made with another secret, the two
    signatures differing, is rejected; (3) a token whose expiry is not
    after the instant of validation is rejected. *)
Theorem token_round_trip `{L : jwt.Library} (jwtSecret : string) (now : time.Time) :
  (∀ (user : User) (t1 t2 t3 t4 : time.Time),
      let claims := utils.accessClaims user t1 t2 in
      let token := {| jwt.Method := jwt.SigningMethodHS256; jwt.TokenClaims := claims;
                      jwt.Signature := jwt.Sign jwt.SigningMethodHS256 jwtSecret claims |} in
      jwt.Decode (jwt.Encode token) = Some token ->
      t2 ≤ now ->
      now < time.Truncate (time.Add t1 time.Hour) time.Second ->
      ∃ refresh,
        utils.GenerateTokens jwtSecret user t1 t2 t3 t4 = inl (jwt.Encode token, refresh)
        ∧ utils.ValidateToken jwtSecret (jwt.Encode token) now = inl claims
        ∧ Claims_UserID claims = User_ID user
        ∧ Claims_Email claims = User_Email user
        ∧ Claims_Role claims = User_Role user)
  ∧ (∀ (secret' tokenString : string) (token : jwt.Token),
        jwt.Decode tokenString = Some token ->
        jwt.Signature token = jwt.Sign (jwt.Method token) secret' (jwt.TokenClaims token) ->
        jwt.Sign (jwt.Method token) secret' (jwt.TokenClaims token)
        ≠ jwt.Sign (jwt.Method token) jwtSecret (jwt.TokenClaims token) ->
        ∃ err, utils.ValidateToken jwtSecret tokenString now = inr err)
  ∧ (∀ (tokenString : string) (token : jwt.Token) (exp : time.Time),
        jwt.Decode tokenString = Some token ->
        ExpiresAt (Registered (jwt.TokenClaims token)) = Some exp ->
        exp ≤ now ->
        ∃ err, utils.ValidateToken jwtSecret tokenString now = inr err).
Proof.
  split; [| split].
  - intros user t1 t2 t3 t4 claims token Hdec Hiat Hexp.
    eexists. split; [reflexivity |].
    split; [| by repeat split].
    rewrite (ValidateToken_decoded _ _ token) by done. cbn [jwt.is_HMAC jwt.Method token].
    unfold jwt.Valid. cbn [jwt.TokenClaims jwt.Signature token Registered claims
                             utils.accessClaims ExpiresAt IssuedAt jwt.NewNumericDate].
    unfold time.Before, time.After, time.Equal.
    rewrite bool_decide_eq_true_2 by done.
    rewrite (bool_decide_eq_true_2 (jwt.Sign _ _ _ = _)) by done.
    pose proof (Truncate_le t2).
    destruct (decide (time.Truncate t2 time.Second < now)).
    + by rewrite bool_decide_eq_true_2 by done.
    + rewrite bool_decide_eq_false_2 by done.
      by rewrite bool_decide_eq_true_2 by lia.
  - intros secret' tokenString token Hdec Hsig Hdiff.
    rewrite (ValidateToken_decoded _ _ token) by done.
    destruct (jwt.is_HMAC _); [| eauto].
    rewrite (bool_decide_eq_false_2 (jwt.Sign _ _ _ = _)) by (rewrite Hsig; congruence).
    rewrite andb_false_r. eauto.
  - intros tokenString token exp Hdec Hexp Hpast.
    rewrite (ValidateToken_decoded _ _ token) by done.
    destruct (jwt.is_HMAC _); [| eauto].
    unfold jwt.Valid. rewrite Hexp. unfold time.Before.
    rewrite bool_decide_eq_false_2 by lia. cbn. eauto.
Qed.

Lemma token_round_trip_witness :
  (∃ refresh,
      utils.GenerateTokens (L := toy_library) "s3cret" alice t0 t0 t0 t0
      = inl (toy_encode (alice_token "s3cret"), refresh)
      ∧ utils.ValidateToken (L := toy_library) "s3cret" (toy_encode (alice_token "s3cret"))
                            (t0 + 60 * time.Second)
        = inl (utils.accessClaims alice t0 t0)
      ∧ Claims_UserID (utils.accessClaims alice t0 t0) = "u-1"
      ∧ Claims_Email (utils.accessClaims alice t0 t0) = "a@example.com"
      ∧ Claims_Role (utils.accessClaims alice t0 t0) = "observer")
  ∧ (∃ err,
        utils.ValidateToken (L := toy_library) "s3cret" (toy_encode (alice_token "other"))
                            (t0 + 60 * time.Second) = inr err)
  ∧ (∃ err,
        utils.ValidateToken (L := toy_library) "s3cret" (toy_encode (alice_token "s3cret"))
                            (t0 + 2 * time.Hour) = inr err).
Proof.
  split; [| split].
  - apply (proj1 (token_round_trip (L := toy_library) "s3cret" (t0 + 60 * time.Second))
             alice t0 t0 t0 t0).
    + vm_compute. reflexivity.
    + vm_compute. discriminate.
    + vm_compute. reflexivity.
  - apply (proj1 (proj2 (token_round_trip (L := toy_library) "s3cret"
                           (t0 + 60 * time.Second)))
             "other" (toy_encode (alice_token "other")) (alice_token "other")).
    + vm_compute. reflexivity.
    + reflexivity.
    + vm_compute. discriminate.
  - apply (proj2 (proj2 (token_round_trip (L := toy_library) "s3cret" (t0 + 2 * time.Hour)))
             (toy_encode (alice_token "s3cret")) (alice_token "s3cret")
             (time.Truncate (time.Add t0 time.Hour) time.Second)).
    + vm_compute. reflexivity.
    + reflexivity.
    + vm_compute. discriminate.
Defined.

(** ** The identity resolver *)

Lemma GetAll_where (c : Collection) (path value : string) :
  GetAll (Where (CollectionQuery c) path value)
  = filter (fun d => matches [(path, value)] d = true) (map_to_list c).*2.
Proof. reflexivity. Qed.

Lemma usersByEmail_stored (fs : FirestoreService) (email : string) (doc : Doc) :
  doc ∈ auth.usersByEmail fs email ->
  (∃ k, Users fs !! k = Some doc) ∧ doc !! "email" = Some (VString email).
Proof.
  unfold auth.usersByEmail. rewrite GetAll_where.
  intros [Hmatch Hin]%list_elem_of_filter. split.
  - apply list_elem_of_fmap in Hin as ([k d] & -> & Hin).
    exists k. by apply elem_of_map_to_list.
  - unfold matches, field_is in Hmatch. cbn in Hmatch.
    destruct (doc !! "email") as [[] |]; try discriminate.
    rewrite andb_true_r in Hmatch. by apply bool_decide_eq_true in Hmatch as ->.
Qed.

Lemma get_string_lookup (d : Doc) (k s : string) :
  d !! k = Some (VString s) -> get_string d k = s.
Proof. intros Hk. unfold get_string. by rewrite Hk. Qed.

Lemma users_well_formed_insert (fs : FirestoreService) (k : string) (d : Doc) :
  spec.users_well_formed fs ->
  User_ID (User_DataTo d) = k ->
  spec.users_well_formed (with_Users fs (<[k := d]> (Users fs))).
Proof. intros Hwf Hid. by apply map_Forall_insert_2. Qed.

Lemma User_ID_last_login (d : Doc) (v : Any) :
  User_ID (User_DataTo (<["last_login_at" := v]> d)) = User_ID (User_DataTo d).
Proof. cbn. unfold get_string. by rewrite lookup_insert_ne. Qed.

Lemma updateUserLastLogin_stored (fs : FirestoreService) (userID : string)
    (now : time.Time) (d : Doc) :
  Users fs !! userID = Some d ->
  auth.updateUserLastLogin fs userID now
  = with_Users fs (<[userID := <["last_login_at" := VTime now]> d]> (Users fs)).
Proof.
  intros Hd. unfold auth.updateUserLastLogin, DocUpdate.
  change (repeats _) with false. cbn iota. by rewrite Hd.
Qed.

Lemma getOrCreateUser_existing (fs : FirestoreService) (info : GoogleUserInfo)
    (env : auth.LoginEnv) (doc : Doc) (rest : list Doc) :
  auth.usersByEmail fs (Info_Email info) = doc :: rest ->
  auth.getOrCreateUser fs info env = inl (User_DataTo doc, fs).
Proof. intros Hfound. unfold auth.getOrCreateUser. by rewrite Hfound. Qed.

Lemma getOrCreateUser_absent (fs : FirestoreService) (info : GoogleUserInfo)
    (env : auth.LoginEnv) :
  auth.usersByEmail fs (Info_Email info) = [] ->
  let user := spec.first_login_user info (auth.new_id env) (auth.t_created env)
                (auth.t_updated env) (auth.t_first_login env) in
  auth.getOrCreateUser fs info env
  = inl (user, with_Users fs (<[auth.new_id env := User_doc user]> (Users fs))).
Proof. intros Habsent. unfold auth.getOrCreateUser. by rewrite Habsent. Qed.


Lemma store1_well_formed : spec.users_well_formed store1.
Proof.
  unfold spec.users_well_formed. apply (bool_decide_unpack _). vm_compute. exact I.
Qed.


(** ** Concurrent image uploads *)

Lemma appended_Images (doc : Doc) (url : string) (now : time.Time) :
  Images (Submission_DataTo (images.appended doc url now))
  = (Images (Submission_DataTo doc) ++ [url])%list.
Proof. unfold images.appended. by rewrite Submission_DataTo_doc. Qed.

Lemma committed_urls_insert_pending (us : list images.Upload) (atts : list images.Attempt)
    (i : nat) (a b : images.Attempt) :
  atts !! i = Some a ->
  images.committed a = false ->
  images.committed b = false ->
  images.committed_urls us (<[i := b]> atts) = images.committed_urls us atts.
Proof.
  revert atts i. induction us as [| u us IH]; intros [| x atts] [| i] Hi Ha Hb;
    try done.
  - injection Hi as ->. cbn. by rewrite Ha, Hb.
  - change (<[S i := b]> (x :: atts)) with (x :: <[i := b]> atts).
    cbn [images.committed_urls]. by rewrite (IH atts i).
Qed.

Lemma committed_urls_insert_commit (us : list images.Upload) (atts : list images.Attempt)
    (i : nat) (a : images.Attempt) (u : images.Upload) :
  us !! i = Some u ->
  atts !! i = Some a ->
  images.committed a = false ->
  images.committed_urls us (<[i := images.Committed]> atts)
  ≡ₚ images.imageURL u :: images.committed_urls us atts.
Proof.
  revert atts i. induction us as [| u' us IH]; intros [| x atts] [| i] Hu Hi Ha;
    try done.
  - injection Hu as ->. injection Hi as ->. cbn. by rewrite Ha.
  - change (<[S i := images.Committed]> (x :: atts))
      with (x :: <[i := images.Committed]> atts).
    cbn [images.committed_urls]. destruct (images.committed x).
    + rewrite (IH atts i) by done. apply perm_swap.
    + by apply IH.
Qed.

Lemma committed_urls_all (us : list images.Upload) (atts : list images.Attempt) :
  length atts = length us ->
  Forall (fun a => a = images.Committed) atts ->
  images.committed_urls us atts = images.imageURL <$> us.
Proof.
  revert atts. induction us as [| u us IH]; intros [| a atts] Hlen Hall; try done.
  apply Forall_cons in Hall as [-> Hall]. cbn in *.
  rewrite IH by (done || lia). reflexivity.
Qed.

Lemma committed_urls_none (us : list images.Upload) :
  images.committed_urls us (replicate (length us) images.Idle) = [].
Proof. induction us as [| u us IH]; [reflexivity | exact IH]. Qed.

(** What every reachable state of the uploads satisfies. *)
Lemma run_invariant (uploads : list images.Upload) (doc : Doc) (s : images.Shared) :
  images.run uploads (images.start doc uploads) s ->
  length (images.attempts s) = length uploads
  ∧ (∃ order,
        order ≡ₚ images.committed_urls uploads (images.attempts s)
        ∧ Images (Submission_DataTo (images.document s))
          = (Images (Submission_DataTo doc) ++ order)%list)
  ∧ ∀ i snapshot seen,
      images.attempts s !! i = Some (images.HasRead snapshot seen) ->
      (seen ≤ images.version s)%nat
      ∧ (seen = images.version s -> snapshot = images.document s).
Proof.
  remember (images.start doc uploads) as s0 eqn:Hs0.
  induction 1 as [s | s1 s2 s3 Hrun IH Hstep].
  - subst s. cbn. rewrite length_replicate. split; [done |]. split.
    + exists []. rewrite committed_urls_none, app_nil_r. done.
    + intros i snapshot seen Hi. apply lookup_replicate in Hi as [? _]. done.
  - destruct (IH Hs0) as (Hlen & (order & Hperm & Himg) & Hreads). clear IH.
    destruct Hstep as [i s Hidle | i s snapshot u Hread Hu | i s snapshot seen Hread Hstale];
      cbn [images.attempts images.document images.version].
    + rewrite length_insert. split; [done |]. split.
      * exists order. by rewrite (committed_urls_insert_pending _ _ _ images.Idle).
      * intros j snap v Hj. destruct (decide (i = j)) as [<- | Hne].
        -- rewrite list_lookup_insert_eq in Hj by (by eapply lookup_lt_Some).
           injection Hj as <- <-. done.
        -- rewrite list_lookup_insert_ne in Hj by done. by apply Hreads in Hj.
    + rewrite length_insert. split; [done |].
      destruct (Hreads i snapshot (images.version s) Hread) as [_ Hsnap].
      rewrite (Hsnap eq_refl). split.
      * exists (order ++ [images.imageURL u])%list. split.
        -- rewrite (committed_urls_insert_commit _ _ _ _ u Hu Hread) by done.
           rewrite <- Hperm. symmetry. apply Permutation_cons_append.
        -- rewrite appended_Images, Himg. by rewrite app_assoc.
      * intros j snap v Hj. destruct (decide (i = j)) as [<- | Hne].
        -- rewrite list_lookup_insert_eq in Hj by (by eapply lookup_lt_Some). done.
        -- rewrite list_lookup_insert_ne in Hj by done.
           apply Hreads in Hj as [Hle _]. split; lia.
    + rewrite length_insert. split; [done |]. split.
      * exists order.
        by rewrite (committed_urls_insert_pending _ _ _ (images.HasRead snapshot seen)).
      * intros j snap v Hj. destruct (decide (i = j)) as [<- | Hne].
        -- rewrite list_lookup_insert_eq in Hj by (by eapply lookup_lt_Some). done.
        -- rewrite list_lookup_insert_ne in Hj by done. by apply Hreads in Hj.
Qed.

Lemma serial_snoc (us : list images.Upload) (u : images.Upload) (doc : Doc) :
  images.serial (us ++ [u]) doc
  = images.appended (images.serial us doc) (images.imageURL u) (images.stamp u).
Proof. revert doc. induction us as [| x us IH]; intros doc; [reflexivity | apply IH]. Qed.

(** The uploads can be run one after the other: after the first [k] the
    document holds their images and the others have not started. *)
Lemma serial_reachable (uploads : list images.Upload) (doc : Doc) (k : nat) :
  (k ≤ length uploads)%nat ->
  images.run uploads (images.start doc uploads)
    {| images.document := images.serial (take k uploads) doc;
       images.version := k;
       images.attempts := replicate k images.Committed
                          ++ replicate (length uploads - k) images.Idle |}.
Proof.
  induction k as [| k IH]; intros Hk.
  - rewrite Nat.sub_0_r. apply images.run_refl.
  - destruct (lookup_lt_is_Some_2 uploads k ltac:(lia)) as [u Hu].
    set (sk := {| images.document := images.serial (take k uploads) doc;
                  images.version := k;
                  images.attempts := replicate k images.Committed
                                     ++ replicate (length uploads - k) images.Idle |}).
    assert (Hidle : images.attempts sk !! k = Some images.Idle).
    { cbn. rewrite lookup_app_r by (rewrite length_replicate; lia).
      rewrite length_replicate, Nat.sub_diag. apply lookup_replicate_2. lia. }
    assert (Hlen : (k < length (images.attempts sk))%nat).
    { by eapply lookup_lt_Some. }
    eapply images.run_step; [eapply images.run_step; [apply IH; lia |] |].
    + apply (images.step_read uploads k sk Hidle).
    + replace {| images.document := _; images.version := S k; images.attempts := _ |}
        with {| images.document :=
                  images.appended (images.document sk) (images.imageURL u) (images.stamp u);
                images.version := S (images.version sk);
                images.attempts :=
                  <[k := images.Committed]>
                    (<[k := images.HasRead (images.document sk) (images.version sk)]>
                       (images.attempts sk)) |}.
      * apply (images.step_commit uploads k
                 {| images.document := images.document sk;
                    images.version := images.version sk;
                    images.attempts :=
                      <[k := images.HasRead (images.document sk) (images.version sk)]>
                        (images.attempts sk) |}
                 (images.document sk) u); [| done].
        cbn [images.attempts images.version]. by apply list_lookup_insert_eq.
      * f_equal.
        -- rewrite (take_S_r _ _ u Hu), serial_snoc. reflexivity.
        -- rewrite list_insert_insert_eq. cbn [images.attempts sk].
           replace (length uploads - k)%nat with (S (length uploads - S k)) by lia.
           rewrite (replicate_S_end k), <- app_assoc.
           rewrite insert_app_r_alt by (rewrite length_replicate; lia).
           rewrite length_replicate, Nat.sub_diag. reflexivity.
Qed.


Lemma contended_run :
  images.run two_uploads (images.start (Submission_doc obs1) two_uploads) contended_end.
Proof.
  pose (s i := default contended_end (contended !! i)).
  change contended_end with (s 5%nat).
  eapply images.run_step; [eapply images.run_step; [eapply images.run_step;
    [eapply images.run_step; [eapply images.run_step; [eapply images.run_step;
      [apply images.run_refl |] |] |] |] |] |].
  - exact (images.step_read two_uploads 0
             (images.start (Submission_doc obs1) two_uploads) eq_refl).
  - exact (images.step_read two_uploads 1 (s 0%nat) eq_refl).
  - exact (images.step_commit two_uploads 0 (s 1%nat) (Submission_doc obs1) _ eq_refl eq_refl).
  - refine (images.step_retry two_uploads 1 (s 2%nat) (Submission_doc obs1) 0 eq_refl _).
    discriminate.
  - exact (images.step_read two_uploads 1 (s 3%nat) eq_refl).
  - exact (images.step_commit two_uploads 1 (s 4%nat) doc_a _ eq_refl eq_refl).
Qed.


(** ** Ownership on read, update and delete *)





(** ** Listing submissions *)

Lemma insert_desc_elem (x y : time.Time * Doc) (l : list (time.Time * Doc)) :
  y ∈ insert_desc x l -> y = x ∨ y ∈ l.
Proof.
  induction l as [| z l IH]; cbn.
  - intros ->%list_elem_of_singleton. by left.
  - destruct (decide (z.1 < x.1)).
    + intros [-> | Hin]%elem_of_cons; [by left | by right].
    + intros [-> | Hin]%elem_of_cons; [right; apply list_elem_of_here |].
      destruct (IH Hin) as [-> | Hl]; [by left | right; by apply list_elem_of_further].
Qed.

Lemma sort_desc_elem (y : time.Time * Doc) (l : list (time.Time * Doc)) :
  y ∈ sort_desc l -> y ∈ l.
Proof.
  induction l as [| x l IH]; cbn; [done |].
  intros [-> | Hin]%insert_desc_elem; [apply list_elem_of_here |].
  apply list_elem_of_further, IH, Hin.
Qed.

Lemma ordered_elem (o : option string) (docs : list Doc) (d : Doc) :
  d ∈ ordered o docs -> d ∈ docs.
Proof.
  destruct o as [path |]; cbn; [| done].
  intros ([t d'] & -> & Hin%sort_desc_elem)%list_elem_of_fmap.
  apply list_elem_of_omap in Hin as (d0 & Hd0 & Hsome).
  destruct (time_field path d0); [| discriminate].
  by injection Hsome as _ <-.
Qed.

(** Every document a query returns is stored in its collection and
    satisfies each of its filters. *)
Lemma GetAll_elem (q : firestore.Query) (d : Doc) (w : string * string) :
  d ∈ GetAll q ->
  (∃ k, source q !! k = Some d) ∧ (w ∈ wheres q -> field_is d w = true).
Proof.
  unfold GetAll. intros Hin.
  assert (Hfiltered : d ∈ filter (fun d => matches (wheres q) d = true)
                                 (map_to_list (source q)).*2).
  { apply (ordered_elem (order_desc q)).
    apply (subseteq_drop (Z.to_nat (offset q))).
    destruct (limit q) as [n |]; [by apply (subseteq_take (Z.to_nat n)) | done]. }
  apply list_elem_of_filter in Hfiltered as [Hmatch Hstored]. split.
  - apply list_elem_of_fmap in Hstored as ([k d'] & -> & Hkd).
    exists k. by apply elem_of_map_to_list.
  - intros Hw. unfold matches in Hmatch.
    rewrite forallb_forall in Hmatch. apply Hmatch. by apply list_elem_of_In.
Qed.

Lemma field_is_user_id (d : Doc) (uid : string) :
  field_is d ("user_id", uid) = true -> UserID (Submission_DataTo d) = uid.
Proof.
  unfold field_is. cbn. unfold get_string.
  destruct (d !! "user_id") as [[] |]; try discriminate.
  by intros ->%bool_decide_eq_true.
Qed.



(** ** The gate on a concrete request *)


(** ** Go's map iteration order does not matter to an update *)

Lemma updates_any_order (d : Doc) (m : gmap string Any) (l : list (string * Any))
    (k : string) :
  l ≡ₚ map_to_list m ->
  foldl (fun acc u => <[Path u := Value u]> acc) d
        ((fun kv => {| Path := kv.1; Value := kv.2 |}) <$> l) !! k
  = apply_updates d (updates_of m) !! k.
Proof.
  intros Hperm. rewrite apply_updates_lookup, foldl_updates_lookup.
  - rewrite (list_to_map_proper l (map_to_list m)); [by rewrite list_to_map_to_list | | done].
    rewrite Hperm. apply NoDup_fst_map_to_list.
  - rewrite Hperm. apply NoDup_fst_map_to_list.
Qed.

(** ** The shape of the exported text *)

Lemma append_cons (x : ascii) (a b : string) : String x a +:+ b = String x (a +:+ b).
Proof. reflexivity. Qed.

Lemma append_assoc (a b c : string) : (a +:+ b) +:+ c = a +:+ (b +:+ c).
Proof. induction a as [| x a IH]; [reflexivity | by rewrite !append_cons, IH]. Qed.

Lemma append_empty_r (a : string) : a +:+ "" = a.
Proof. induction a as [| x a IH]; [reflexivity | by rewrite append_cons, IH]. Qed.

Lemma free_of_append (c : ascii) (a b : string) :
  csv.free_of c (a +:+ b) = csv.free_of c a && csv.free_of c b.
Proof.
  induction a as [| x a IH]; [reflexivity |].
  rewrite append_cons. simpl. rewrite IH. by rewrite andb_assoc.
Qed.

Lemma Split_field (c : ascii) (a rest : string) :
  csv.free_of c a = true ->
  gostrings.Split (a +:+ String c rest) c = a :: gostrings.Split rest c.
Proof.
  induction a as [| x a IH]; [| rewrite append_cons]; simpl; intros Hfree.
  - destruct (decide (c = c)); done.
  - apply andb_true_iff in Hfree as [Hx Hfree].
    apply negb_true_iff, bool_decide_eq_false in Hx.
    destruct (decide (x = c)); [done |]. by rewrite (IH Hfree).
Qed.

Lemma Split_last (c : ascii) (a : string) :
  csv.free_of c a = true -> gostrings.Split a c = [a].
Proof.
  induction a as [| x a IH]; simpl; intros Hfree; [reflexivity |].
  apply andb_true_iff in Hfree as [Hx Hfree].
  apply negb_true_iff, bool_decide_eq_false in Hx.
  destruct (decide (x = c)); [done |]. by rewrite (IH Hfree).
Qed.

Lemma digit_is_digit (n : Z) :
  ∃ k, (k < 10)%nat ∧ time.digit n = ascii_of_nat (48 + k).
Proof.
  unfold time.digit. exists (Z.to_nat (n mod 10)). split; [| reflexivity].
  pose proof (Z.mod_pos_bound n 10 ltac:(lia)). lia.
Qed.

Lemma digits_free (c : ascii) (w : nat) (n : Z) :
  c = ","%char ∨ c = ascii_of_nat 10 -> csv.free_of c (time.digits w n) = true.
Proof.
  intros Hc. revert n. induction w as [| w IH]; intros n; [reflexivity |].
  cbn [time.digits]. rewrite free_of_append, IH. cbn [csv.free_of andb].
  destruct (digit_is_digit n) as (k & Hk & ->).
  rewrite andb_true_r. apply negb_true_iff, bool_decide_eq_false.
  do 10 (destruct k as [| k]; [destruct Hc as [-> | ->]; discriminate |]). lia.
Qed.

Lemma Format_date_free (c : ascii) (t : time.Time) :
  c = ","%char ∨ c = ascii_of_nat 10 -> csv.free_of c (time.Format_date t) = true.
Proof.
  intros Hc. unfold time.Format_date.
  destruct (time.civil _) as [[y m] d].
  rewrite !free_of_append, !digits_free by done.
  destruct Hc as [-> | ->]; reflexivity.
Qed.

(** The text built by appending row after row to the header. *)
Lemma content_unfold (row : Submission -> string) (l : list Submission) (acc : string) :
  foldl (fun acc s => acc +:+ row s) acc l
  = acc +:+ foldr (fun s r => row s +:+ r) "" l.
Proof.
  revert acc. induction l as [| s l IH]; intros acc; simpl.
  - by rewrite append_empty_r.
  - rewrite IH. apply append_assoc.
Qed.

Lemma Join_cons (v v' : string) (vs : list string) (sep : string) :
  gostrings.Join (v :: v' :: vs) sep = v +:+ sep +:+ gostrings.Join (v' :: vs) sep.
Proof. reflexivity. Qed.

Lemma Join_free (c : ascii) (vs : list string) :
  c ≠ ","%char ->
  Forall (fun v => csv.free_of c v = true) vs ->
  csv.free_of c (gostrings.Join vs ",") = true.
Proof.
  intros Hc. induction vs as [| v vs IH]; intros Hclean; [reflexivity |].
  apply Forall_cons in Hclean as [Hv Hvs].
  destruct vs as [| v' vs]; [exact Hv |].
  rewrite Join_cons, !free_of_append, Hv, (IH Hvs). cbn [csv.free_of andb].
  rewrite bool_decide_eq_false_2 by congruence. reflexivity.
Qed.

(** The lines and columns of rows that end in a newline and hold clean
    values between commas. *)
Lemma rows_split (values : Submission -> list string) (l : list Submission) :
  (∀ s, s ∈ l -> values s ≠ []
                 ∧ ∀ c, c = ","%char ∨ c = ascii_of_nat 10 ->
                        Forall (fun v => csv.free_of c v = true) (values s)) ->
  gostrings.Split
    (foldr (fun s r => (gostrings.Join (values s) "," +:+ csv.nl) +:+ r) "" l)
    (ascii_of_nat 10)
  = (((fun s => gostrings.Join (values s) ",") <$> l) ++ [""])%list.
Proof.
  unfold csv.nl. induction l as [| s l IH]; intros Hl; [reflexivity |].
  cbn [foldr fmap list_fmap app]. rewrite append_assoc.
  change (String (ascii_of_nat 10) "" +:+ ?r) with (String (ascii_of_nat 10) r).
  rewrite Split_field.
  - rewrite IH; [reflexivity |]. intros s' Hs'. apply Hl. by right.
  - destruct (Hl s ltac:(left)) as [_ Hclean].
    apply Join_free; [discriminate | apply Hclean; by right].
Qed.

Lemma Join_columns (vs : list string) :
  vs ≠ [] ->
  Forall (fun v => csv.free_of ","%char v = true) vs ->
  csv.columns (gostrings.Join vs ",") = vs.
Proof.
  unfold csv.columns. induction vs as [| v vs IH]; [done |]. intros _ Hclean.
  apply Forall_cons in Hclean as [Hv Hvs].
  destruct vs as [| v' vs]; [by apply Split_last |].
  rewrite Join_cons.
  change ("," +:+ ?r) with (String ","%char r).
  rewrite Split_field by done. by rewrite IH.
Qed.

Lemma operands_clean (s : Submission) (c : ascii) (tail : list string) :
  csv.plain s ->
  c = ","%char ∨ c = ascii_of_nat 10 ->
  Forall (fun v => csv.free_of c v = true) tail ->
  Forall (fun v => csv.free_of c v = true) (csv.operands s ++ tail)%list.
Proof.
  intros Hplain Hc Htail. destruct (Hplain c Hc) as (Hid & Hstage & Hobs & Hstatus).
  unfold csv.operands. cbn [app].
  repeat (apply Forall_cons; split; [done || by apply Format_date_free |]). done.
Qed.

Lemma rows_ext (row row' : Submission -> string) (l : list Submission) :
  (∀ s, row s = row' s) ->
  foldr (fun s r => row s +:+ r) "" l = foldr (fun s r => row' s +:+ r) "" l.
Proof.
  intros Hrow. induction l as [| s l IH]; [reflexivity |].
  cbn [foldr]. by rewrite Hrow, IH.
Qed.

Lemma content_lines (row : Submission -> string) (values : Submission -> list string)
    (l : list Submission) :
  (∀ s, row s = gostrings.Join (values s) "," +:+ csv.nl) ->
  (∀ s, s ∈ l -> values s ≠ []
                 ∧ ∀ c, c = ","%char ∨ c = ascii_of_nat 10 ->
                        Forall (fun v => csv.free_of c v = true) (values s)) ->
  csv.columns <$> csv.lines (csv.content row l)
  = ["ID"; "Date"; "Location"; "Growth Stage"; "Observer"; "Status"] :: (values <$> l).
Proof.
  intros Hrow Hclean. unfold csv.content, csv.lines.
  rewrite content_unfold.
  rewrite (rows_ext row (fun s => gostrings.Join (values s) "," +:+ csv.nl) l Hrow).
  unfold csv.header, csv.nl. rewrite append_assoc.
  change (String (ascii_of_nat 10) "" +:+ ?r) with (String (ascii_of_nat 10) r).
  rewrite Split_field by reflexivity.
  pose proof (rows_split values l Hclean) as Hrows. unfold csv.nl in Hrows.
  rewrite Hrows.
  rewrite app_comm_cons, removelast_last. cbn [fmap list_fmap].
  f_equal.
  rewrite <- list_fmap_compose. apply Forall_fmap_ext, Forall_forall.
  intros s Hs. cbn. destruct (Hclean s Hs) as [Hne Hfree].
  apply Join_columns; [done | apply Hfree; by left].
Qed.


Lemma obs1_plain : csv.plain obs1.
Proof. intros ch [-> | ->]; repeat split; reflexivity. Qed.


(** * Properties of the rest of the backend *)

(** ** Users *)



Lemma prepared_repeats (caller : User) (updateData : gmap string Any) (t1 t2 : time.Time) :
  repeats (Path <$> ({| Path := "updated_at"; Value := VTime t2 |}
                     :: updates_of (users.prepared caller updateData t1))) = true.
Proof.
  unfold users.prepared. case_decide.
  - rewrite delete_insert_ne by done. apply handler_updates_repeat.
  - apply handler_updates_repeat.
Qed.

(** [UpdateUser] never changes the store: like the other update handlers
    it puts updated_at into the write list twice, so a caller entitled to
    the update (the user itself or an admin, with a JSON map as body) is
    answered 500.  The map it prepares holds no id, email or created-at,
    holds a role only when the caller is admin, and holds every other key
    of the caller's map. *)
Theorem UpdateUser_writes_nothing
    (fs : FirestoreService) (t1 t2 : time.Time) (c : Context) :
  spec.after (users.UpdateUser fs t1 t2 c) = fs
  ∧ (∀ caller updateData,
        spec.authenticated c caller ->
        User_ID caller = Param c "id" ∨ User_Role caller = "admin" ->
        JSONBody c = Some updateData ->
        users.UpdateUser fs t1 t2 c
        = Responded (fail 500 "internal_error" "Failed to update user") fs)
  ∧ (∀ caller updateData,
        let m := users.prepared caller updateData t1 in
        m !! "id" = None ∧ m !! "email" = None ∧ m !! "created_at" = None
        ∧ m !! "updated_at" = Some (VTime t1)
        ∧ m !! "role" = (if decide (User_Role caller ≠ "admin") then None
                         else updateData !! "role")
        ∧ ∀ k, k ∉ ["id"; "email"; "created_at"; "updated_at"; "role"] ->
               m !! k = updateData !! k).
Proof.
  split; [| split].
  - unfold users.UpdateUser.
    destruct (CurrentUser c) as [caller |]; [| done].
    case_decide; [done |]. destruct (JSONBody c) as [updateData |]; [| done].
    unfold DocUpdate. by rewrite prepared_repeats.
  - intros caller updateData Hcaller Hmay Hbody.
    unfold users.UpdateUser. rewrite Hcaller.
    case_decide as Hno; [destruct Hno; by destruct Hmay |].
    rewrite Hbody. unfold DocUpdate. by rewrite prepared_repeats.
  - intros caller updateData m. subst m. unfold users.prepared.
    case_decide.
    + repeat split.
      * by rewrite lookup_delete_ne, lookup_insert_ne, !lookup_delete_ne,
          lookup_delete_eq by done.
      * by rewrite lookup_delete_ne, lookup_insert_ne, lookup_delete_ne,
          lookup_delete_eq by done.
      * by rewrite lookup_delete_ne, lookup_insert_ne, lookup_delete_eq by done.
      * by rewrite lookup_delete_ne, lookup_insert_eq by done.
      * by rewrite lookup_delete_eq.
      * intros k Hk. repeat (apply not_elem_of_cons in Hk as [? Hk]).
        by rewrite lookup_delete_ne, lookup_insert_ne, !lookup_delete_ne by done.
    + repeat split.
      * by rewrite lookup_insert_ne, !lookup_delete_ne, lookup_delete_eq by done.
      * by rewrite lookup_insert_ne, lookup_delete_ne, lookup_delete_eq by done.
      * by rewrite lookup_insert_ne, lookup_delete_eq by done.
      * by rewrite lookup_insert_eq.
      * by rewrite lookup_insert_ne, !lookup_delete_ne by done.
      * intros k Hk. repeat (apply not_elem_of_cons in Hk as [? Hk]).
        by rewrite lookup_insert_ne, !lookup_delete_ne by done.
Qed.

Lemma UpdateUser_writes_nothing_witness :
  users.UpdateUser store1 5 6 (request_as alice "u-1" (Some {["name" := VString "A."]}))
  = Responded (fail 500 "internal_error" "Failed to update user") store1.
Proof.
  exact (proj1 (proj2 (UpdateUser_writes_nothing store1 5 6
                         (request_as alice "u-1" (Some {["name" := VString "A."]}))))
           alice {["name" := VString "A."]} eq_refl (or_introl eq_refl) eq_refl).
Defined.

(** The gate on a request whose Authorization header is "Bearer " followed
    by a token. *)
Lemma RequireAuth_bearer `{L : jwt.Library} (jwtSecret : string)
    (fs : FirestoreService) (now : time.Time) (c : Context) (tokenString : string) :
  GetHeader c "Authorization" = "Bearer " +:+ tokenString ->
  middleware.RequireAuth jwtSecret fs now c
  = match utils.ValidateToken jwtSecret tokenString now with
    | inr _ => Abort (fail 401 "unauthorized" "Invalid token")
    | inl claims =>
        match Users fs !! Claims_UserID claims with
        | None => Abort (fail 401 "unauthorized" "User not found")
        | Some doc => Next (spec.attached c (User_DataTo doc))
        end
    end.
Proof.
  intros Hheader. unfold middleware.RequireAuth, gostrings.TrimPrefix. rewrite Hheader.
  destruct (decide ("Bearer " +:+ tokenString = "")) as [Hempty | _]; [discriminate |].
  rewrite (proj2 (strip_Some "Bearer " _ tokenString) eq_refl).
  destruct (decide (tokenString = "Bearer " +:+ tokenString)) as [Heq | _].
  { exfalso. by apply (trimmed_differs "Bearer " tokenString). }
  destruct (utils.ValidateToken jwtSecret tokenString now) as [claims | err]; [| done].
  unfold middleware.getUserByID, DocGet.
  by destruct (Users fs !! Claims_UserID claims).
Qed.

(** [DeleteUser] refuses everyone but an admin, also for the caller's own
    account, and refuses an admin's own account.  An admin's deletion of
    another id answers 200 whether or not that user is stored, removes the
    user document and nothing else (the user's submissions and fields
    stay), and from then on the gate turns away every bearer token whose
    claims name that id. *)
Theorem DeleteUser_effect `{L : jwt.Library} (jwtSecret : string)
    (fs : FirestoreService) (c : Context) (caller : User) :
  spec.authenticated c caller ->
  (User_Role caller ≠ "admin" ->
   users.DeleteUser fs c
   = Responded (fail 403 "forbidden" "Only administrators can delete users") fs)
  ∧ (User_Role caller = "admin" -> User_ID caller = Param c "id" ->
     users.DeleteUser fs c
     = Responded (fail 400 "invalid_request" "Cannot delete your own account") fs)
  ∧ (User_Role caller = "admin" -> User_ID caller ≠ Param c "id" ->
     ∃ fs',
       users.DeleteUser fs c = Responded (ok NoData "User deleted successfully") fs'
       ∧ Users fs' = delete (Param c "id") (Users fs)
       ∧ Submissions fs' = Submissions fs
       ∧ Fields fs' = Fields fs
       ∧ ∀ now c' tokenString claims,
           GetHeader c' "Authorization" = "Bearer " +:+ tokenString ->
           utils.ValidateToken jwtSecret tokenString now = inl claims ->
           Claims_UserID claims = Param c "id" ->
           middleware.RequireAuth jwtSecret fs' now c'
           = Abort (fail 401 "unauthorized" "User not found")).
Proof.
  intros Hcaller. split; [| split].
  - intros Hrole. unfold users.DeleteUser. rewrite Hcaller. by case_decide.
  - intros Hrole Hself. unfold users.DeleteUser. rewrite Hcaller.
    case_decide; [done |]. by case_decide.
  - intros Hrole Hother.
    exists (with_Users fs (DocDelete (Users fs) (Param c "id"))).
    split.
    { unfold users.DeleteUser. rewrite Hcaller.
      case_decide; [done |]. by case_decide. }
    repeat (split; [reflexivity |]).
    intros now c' tokenString claims Hheader Hvalid Hid.
    rewrite (RequireAuth_bearer _ _ _ _ tokenString Hheader), Hvalid, Hid.
    cbn [Users with_Users]. unfold DocDelete. by rewrite lookup_delete_eq.
Qed.

Lemma DeleteUser_effect_witness :
  ∃ fs',
    users.DeleteUser store1 (request_as root "u-1" None)
    = Responded (ok NoData "User deleted successfully") fs'
    ∧ Submissions fs' = Submissions store1
    ∧ middleware.RequireAuth (L := toy_library) "s3cret" fs' (t0 + 60 * time.Second)
                             bearer_request
      = Abort (fail 401 "unauthorized" "User not found").
Proof.
  destruct (proj2 (proj2 (DeleteUser_effect (L := toy_library) "s3cret" store1
                            (request_as root "u-1" None) root eq_refl))
              eq_refl ltac:(discriminate))
    as (fs' & Hrun & _ & Hsubs & _ & Hgate).
  exists fs'. split; [exact Hrun |]. split; [exact Hsubs |].
  apply (Hgate _ _ (toy_encode (alice_token "s3cret")) (utils.accessClaims alice t0 t0));
    [reflexivity | vm_compute; reflexivity | reflexivity].
Defined.

(** ** Sessions *)

(** The access token of [GenerateTokens] validates from its issue up to
    its expiry. *)
Lemma access_token_valid `{L : jwt.Library} (jwtSecret : string) (user : User)
    (i1 i2 now : time.Time) :
  let claims := utils.accessClaims user i1 i2 in
  let token := {| jwt.Method := jwt.SigningMethodHS256; jwt.TokenClaims := claims;
                  jwt.Signature := jwt.Sign jwt.SigningMethodHS256 jwtSecret claims |} in
  jwt.Decode (jwt.Encode token) = Some token ->
  i2 ≤ now ->
  now < time.Truncate (time.Add i1 time.Hour) time.Second ->
  utils.ValidateToken jwtSecret (jwt.Encode token) now = inl claims.
Proof.
  intros claims token Hdec Hiat Hexp.
  rewrite (ValidateToken_decoded _ _ token) by done. cbn [jwt.is_HMAC jwt.Method token].
  unfold jwt.Valid. cbn [jwt.TokenClaims jwt.Signature token Registered claims
                           utils.accessClaims ExpiresAt IssuedAt jwt.NewNumericDate].
  unfold time.Before, time.After, time.Equal.
  rewrite bool_decide_eq_true_2 by done.
  rewrite (bool_decide_eq_true_2 (jwt.Sign _ _ _ = _)) by done.
  pose proof (Truncate_le i2).
  destruct (decide (time.Truncate i2 time.Second < now)).
  - by rewrite bool_decide_eq_true_2 by done.
  - rewrite bool_decide_eq_false_2 by done.
    by rewrite bool_decide_eq_true_2 by lia.
Qed.



(** ** Behind the gate *)

Lemma attached_user (c : Context) (user : User) :
  CurrentUser (spec.attached c user) = Some user.
Proof.
  unfold CurrentUser, spec.attached, Set_. cbn [Keys].
  by rewrite !lookup_insert_ne, lookup_insert_eq by done.
Qed.

Ltac answers Hcaller :=
  unfold more.responds; rewrite ?Hcaller;
  repeat (case_match; try discriminate); eauto.

(** The handlers that read the caller from the context answer whenever a
    caller is attached, on every store and every request. *)
Lemma handlers_answer (c : Context) (caller : User) (fs : FirestoreService)
    (ss : StorageService) (id : string) (t1 t2 : time.Time) :
  spec.authenticated c caller ->
  more.responds (handlers.GetFields fs c)
  ∧ more.responds (fieldcreate.CreateField fs id t1 t2 c)
  ∧ more.responds (handlers.GetField fs c)
  ∧ more.responds (handlers.UpdateField fs t1 t2 c)
  ∧ more.responds (handlers.DeleteField fs c)
  ∧ more.responds (part_002.GetSubmissions fs c)
  ∧ more.responds (part_002.CreateSubmission fs id t1 t2 c)
  ∧ more.responds (part_002.GetSubmission fs c)
  ∧ more.responds (part_002.ExportSubmissions fs c)
  ∧ more.responds (submissions_go.GetSubmissions fs c)
  ∧ more.responds (submissions_go.GetSubmission fs c)
  ∧ more.responds (submissions_go.ExportSubmissions fs c)
  ∧ more.responds (handlers.UpdateSubmission fs t1 t2 c)
  ∧ more.responds (handlers.DeleteSubmission fs c)
  ∧ more.responds (users.GetUser fs c)
  ∧ more.responds (users.UpdateUser fs t1 t2 c)
  ∧ more.responds (users.DeleteUser fs c)
  ∧ more.responds (blobs.DeleteImage ss c).
Proof.
  intros Hcaller. unfold spec.authenticated in Hcaller.
  repeat split.
  - unfold handlers.GetFields. answers Hcaller.
  - unfold fieldcreate.CreateField. answers Hcaller.
  - unfold handlers.GetField. answers Hcaller.
  - unfold handlers.UpdateField. answers Hcaller.
  - unfold handlers.DeleteField. answers Hcaller.
  - unfold part_002.GetSubmissions. answers Hcaller.
  - unfold part_002.CreateSubmission. answers Hcaller.
  - unfold part_002.GetSubmission. answers Hcaller.
  - unfold part_002.ExportSubmissions. answers Hcaller.
  - unfold submissions_go.GetSubmissions. answers Hcaller.
  - unfold submissions_go.GetSubmission. answers Hcaller.
  - unfold submissions_go.ExportSubmissions. answers Hcaller.
  - unfold handlers.UpdateSubmission. answers Hcaller.
  - unfold handlers.DeleteSubmission. answers Hcaller.
  - unfold users.GetUser. answers Hcaller.
  - unfold users.UpdateUser. answers Hcaller.
  - unfold users.DeleteUser. answers Hcaller.
  - unfold blobs.DeleteImage. answers Hcaller.
Qed.

Lemma gate_attaches `{L : jwt.Library} (jwtSecret : string)
    (fs : FirestoreService) (now : time.Time) (c c' : Context) :
  middleware.RequireAuth jwtSecret fs now c = Next c' ->
  ∃ k doc, Users fs !! k = Some doc ∧ c' = spec.attached c (User_DataTo doc).
Proof.
  unfold middleware.RequireAuth.
  case_decide; [discriminate |]. case_decide; [discriminate |].
  destruct (utils.ValidateToken _ _ _) as [claims |]; [| discriminate].
  unfold middleware.getUserByID, DocGet.
  destruct (Users fs !! Claims_UserID claims) as [doc |] eqn:Hdoc; [| discriminate].
  intros [= <-]. by exists (Claims_UserID claims), doc.
Qed.

(** When the gate lets a request through, the context it hands on holds a
    user read from the store, with header, path parameters, query and body
    of the request as they were; [GetCurrentUser] then answers 200 with
    that user, and [RequireAdmin] does not panic and lets the request pass
    exactly when the stored role is admin, whatever role the token's
    claims name. *)
Theorem behind_the_gate `{L : jwt.Library} (jwtSecret : string)
    (fs : FirestoreService) (now : time.Time) (c c' : Context) :
  middleware.RequireAuth jwtSecret fs now c = Next c' ->
  ∃ k doc,
    Users fs !! k = Some doc
    ∧ spec.authenticated c' (User_DataTo doc)
    ∧ RequestHeader c' = RequestHeader c
    ∧ Params c' = Params c
    ∧ QueryValues c' = QueryValues c
    ∧ JSONBody c' = JSONBody c
    ∧ session.GetCurrentUser c' = (200, inl (KUser (User_DataTo doc)))
    ∧ admin.RequireAdmin c'
      = Some (if decide (User_Role (User_DataTo doc) = "admin") then Next c'
              else Abort (fail 403 "forbidden" "Admin access required")).
Proof.
  intros (k & doc & Hdoc & ->)%gate_attaches. exists k, doc.
  pose proof (attached_user c (User_DataTo doc)) as Hcaller.
  assert (Hkey : Keys (spec.attached c (User_DataTo doc)) !! "user"
                 = Some (KUser (User_DataTo doc))).
  { unfold spec.attached, Set_. cbn [Keys].
    by rewrite !lookup_insert_ne, lookup_insert_eq by done. }
  repeat (split; [done |]). split.
  - unfold session.GetCurrentUser. by rewrite Hkey.
  - unfold admin.RequireAdmin. rewrite Hkey. by repeat case_decide.
Qed.

Lemma behind_the_gate_witness :
  ∃ k doc,
    Users store1 !! k = Some doc
    ∧ spec.authenticated (spec.attached bearer_request alice) (User_DataTo doc)
    ∧ RequestHeader (spec.attached bearer_request alice) = RequestHeader bearer_request
    ∧ Params (spec.attached bearer_request alice) = Params bearer_request
    ∧ QueryValues (spec.attached bearer_request alice) = QueryValues bearer_request
    ∧ JSONBody (spec.attached bearer_request alice) = JSONBody bearer_request
    ∧ session.GetCurrentUser (spec.attached bearer_request alice)
      = (200, inl (KUser (User_DataTo doc)))
    ∧ admin.RequireAdmin (spec.attached bearer_request alice)
      = Some (if decide (User_Role (User_DataTo doc) = "admin")
              then Next (spec.attached bearer_request alice)
              else Abort (fail 403 "forbidden" "Admin access required")).
Proof.
  apply (behind_the_gate (L := toy_library) "s3cret" store1 (t0 + 60 * time.Second)
           bearer_request).
  vm_compute. reflexivity.
Defined.


(** ** Images *)

Lemma object_name (submissionID id stamp ext : string) :
  fmt.Sprintf "%s/%s_%s%s" [submissionID; id; stamp; ext]
  = submissionID +:+ "/" +:+ id +:+ "_" +:+ stamp +:+ ext.
Proof. cbn [fmt.Sprintf]. by rewrite !append_cons, append_empty_r. Qed.

Lemma object_url (bucket filename : string) :
  fmt.Sprintf "https://storage.googleapis.com/%s/%s" [bucket; filename]
  = "https://storage.googleapis.com/" +:+ bucket +:+ "/" +:+ filename.
Proof. cbn [fmt.Sprintf]. by rewrite !append_cons, append_empty_r. Qed.

Lemma public_url (ss : StorageService) (filename : string) :
  blobs.publicURL ss filename
  = "https://storage.googleapis.com/" +:+ BucketName ss +:+ "/" +:+ filename.
Proof. apply object_url. Qed.

(** What [UploadImage] does once the form holds a submission id of five
    bytes or more and a file that passes the extension check. *)
Lemma UploadImage_run
    (ss : StorageService) (fs : FirestoreService) (id : string) (t1 t2 : time.Time)
    (c : Context) (header : FileHeader) :
  let submissionID := PostForm c "submission_id" in
  let name := submissionID +:+ "/" +:+ id +:+ "_" +:+ time.Format_stamp t1
              +:+ filepath.Ext (Filename header) in
  let url := "https://storage.googleapis.com/" +:+ BucketName ss +:+ "/" +:+ name in
  let ss' := {| BucketName := BucketName ss;
                Objects := <[name := (ContentType header, Content header)]> (Objects ss) |} in
  let uploaded := ok (Uploaded name url) "Image uploaded successfully" in
  (5 ≤ String.length submissionID)%nat ->
  FormFiles c !! "image" = Some header ->
  utils.ValidateFileType (Filename header) = true ->
  images.UploadImage (ss, fs) id t1 t2 c
  = if decide (substring 0 5 submissionID ≠ "temp_") then
      match images.addImageToSubmission fs submissionID url t2 with
      | inr _ =>
          Responded (fail 500 "internal_error"
                          "Failed to update submission with image") (ss', fs)
      | inl fs' => Responded uploaded (ss', fs')
      end
    else Responded uploaded (ss', fs).
Proof.
  intros submissionID name url ss' uploaded Hlen Hfile Hext.
  unfold images.UploadImage. fold submissionID.
  destruct (decide (submissionID = "")) as [Hempty | Hfilled].
  { rewrite Hempty in Hlen. cbn in Hlen. lia. }
  rewrite Hfile, Hext. cbn [negb images.Write].
  destruct (decide (submissionID ≠ "")) as [_ | Hno]; [| done].
  rewrite (slice_to_long _ 5 Hlen).
  rewrite object_name, object_url. reflexivity.
Qed.





(** ** Reading what was created *)



(** [CreateField] on a payload that binds, sent by an authenticated
    caller: the answer is 201, the stored field has the id the server drew
    and the caller as owner, and nothing but that document changes.
    Afterwards [GetField] of the id answers 200 with the field as created
    to its creator and to an admin and 403 to everyone else, and
    [GetFields] lists the field to every caller. *)
Theorem CreateField_then_read
    (fs : FirestoreService) (id : string) (t1 t2 : time.Time) (c : Context)
    (caller : User) (body : gmap string Any) (req : fieldcreate.CreateFieldRequest) :
  spec.authenticated c caller ->
  JSONBody c = Some body ->
  fieldcreate.bind body = Some req ->
  let field := fieldcreate.newField caller req id t1 t2 in
  ∃ fs',
    fieldcreate.CreateField fs id t1 t2 c
    = Responded (JSON 201 (SuccessBody {| Success := true; Data_ := OneField field;
                                          Message_ := "Field created successfully" |})) fs'
    ∧ Field_ID field = id ∧ Field_OwnerID field = User_ID caller
    ∧ Users fs' = Users fs ∧ Submissions fs' = Submissions fs
    ∧ (∀ k, k ≠ id -> Fields fs' !! k = Fields fs !! k)
    ∧ (∀ c2 reader,
         spec.authenticated c2 reader -> Param c2 "id" = id ->
         handlers.GetField fs' c2
         = Responded
             (if decide (User_Role reader ≠ "admin" ∧ User_ID caller ≠ User_ID reader)
              then fail 403 "forbidden" "Access denied"
              else ok (OneField field) "") fs')
    ∧ (∀ c3, ∃ fields,
         handlers.GetFields fs' c3 = Responded (ok (FieldList fields) "") fs'
         ∧ field ∈ fields).
Proof.
  intros Hcaller Hbody Hbind field.
  eexists. unfold fieldcreate.CreateField.
  rewrite Hbody. cbn [mbind option_bind]. rewrite Hbind, Hcaller.
  split; [reflexivity |]. repeat (split; [reflexivity |]).
  cbn [Fields with_Fields Field_ID fieldcreate.newField]. unfold DocSet.
  split; [| split].
  - intros k Hk. by rewrite lookup_insert_ne.
  - intros c2 reader Hreader Hid. unfold handlers.GetField, handlers.getFieldByID, DocGet.
    rewrite Hreader, Hid. cbn [Fields with_Fields].
    rewrite lookup_insert_eq, Field_DataTo_doc.
    cbn [Field_OwnerID fieldcreate.newField]. by repeat case_decide.
  - intros c3. eexists. split; [reflexivity |].
    rewrite GetAll_collection. cbn [Fields with_Fields].
    apply list_elem_of_fmap.
    exists (Field_doc (fieldcreate.newField caller req id t1 t2)).
    split; [by rewrite Field_DataTo_doc |].
    apply list_elem_of_fmap. exists (id, Field_doc (fieldcreate.newField caller req id t1 t2)).
    split; [reflexivity |]. apply elem_of_map_to_list, lookup_insert_eq.
Qed.

Lemma CreateField_then_read_witness :
  ∃ fs',
    fieldcreate.CreateField store1 "f-9" 5 6 (request_as alice "" (Some field_body))
    = Responded
        (JSON 201
           (SuccessBody {| Success := true;
                           Data_ := OneField (fieldcreate.newField alice field_req "f-9" 5 6);
                           Message_ := "Field created successfully" |})) fs'
    ∧ handlers.GetField fs' (request_as alice "f-9" None)
      = Responded (ok (OneField (fieldcreate.newField alice field_req "f-9" 5 6)) "") fs'
    ∧ handlers.GetField fs' (request_as bob "f-9" None)
      = Responded (fail 403 "forbidden" "Access denied") fs'.
Proof.
  destruct (CreateField_then_read store1 "f-9" 5 6 (request_as alice "" (Some field_body))
              alice field_body field_req eq_refl eq_refl ltac:(vm_compute; reflexivity))
    as (fs' & Hrun & _ & _ & _ & _ & _ & Hread & _).
  exists fs'. split; [exact Hrun |]. split.
  - exact (Hread (request_as alice "f-9" None) alice eq_refl eq_refl).
  - exact (Hread (request_as bob "f-9" None) bob eq_refl eq_refl).
Defined.

(** ** The extension check *)

Lemma substring_whole (s : string) : substring 0 (String.length s) s = s.
Proof. induction s as [| a s IH]; [reflexivity | cbn; by rewrite IH]. Qed.

Lemma substring_append_r (p e : string) :
  substring (String.length p) (String.length e) (p +:+ e) = e.
Proof. induction p as [| a p IH]; [apply substring_whole | exact IH]. Qed.

Lemma substring_split (n : nat) (s : string) :
  (n ≤ String.length s)%nat ->
  s = substring 0 n s +:+ substring n (String.length s - n) s.
Proof.
  revert s. induction n as [| n IH]; intros s Hn.
  - rewrite Nat.sub_0_r, substring_whole. by destruct s.
  - destruct s as [| a s]; [cbn in Hn; lia |].
    cbn [substring String.length Nat.sub]. rewrite append_cons. f_equal.
    apply IH. cbn in Hn. lia.
Qed.

Lemma HasSuffix_append (s x : string) :
  gostrings.HasSuffix s x = true <-> ∃ p, s = p +:+ x.
Proof.
  unfold gostrings.HasSuffix. split.
  - intros [Hlen Hsub]%andb_true_iff.
    apply bool_decide_eq_true in Hlen. apply bool_decide_eq_true in Hsub.
    exists (substring 0 (String.length s - String.length x) s).
    pose proof (substring_split (String.length s - String.length x) s ltac:(lia)) as Hs.
    replace (String.length s - (String.length s - String.length x))%nat
      with (String.length x) in Hs by lia.
    by rewrite Hsub in Hs.
  - intros [p ->]. rewrite length_append.
    rewrite bool_decide_eq_true_2 by lia.
    replace (String.length p + String.length x - String.length x)%nat
      with (String.length p) by lia.
    by rewrite substring_append_r, bool_decide_eq_true_2.
Qed.

Lemma Ext_suffix (path : string) : ∃ p, path = p +:+ filepath.Ext path.
Proof.
  induction path as [| a r [p IH]]; [by exists "" |].
  cbn [filepath.Ext]. destruct (filepath.Ext r) as [| b e].
  - destruct (filepath.has_separator r).
    { exists (String a r). by rewrite append_empty_r. }
    case_decide; [by exists "" |].
    exists (String a r). by rewrite append_empty_r.
  - exists (String a p). by rewrite append_cons, <- IH.
Qed.

Lemma Ext_append (p e : string) :
  e ≠ "" -> filepath.Ext e = e -> filepath.Ext (p +:+ e) = e.
Proof.
  intros Hfilled He. induction p as [| a p IH]; [exact He |].
  rewrite append_cons. cbn [filepath.Ext]. rewrite IH. by destruct e.
Qed.

(** The suffix test of [ValidateFileType] accepts a file name exactly when
    the extension [filepath.Ext] finds in it, which is the one
    [UploadImage] puts into the object name, is one of the four allowed
    ones (in lower case). *)
Theorem ValidateFileType_iff_Ext (filename : string) :
  utils.ValidateFileType filename = true
  <-> filepath.Ext filename ∈ utils.allowedTypes.
Proof.
  unfold utils.ValidateFileType. rewrite existsb_exists. split.
  - intros (e & He & [p ->]%HasSuffix_append).
    apply list_elem_of_In in He.
    rewrite Ext_append; [done | |].
    + intros ->. unfold utils.allowedTypes in He.
      repeat (apply elem_of_cons in He as [He | He]; [discriminate |]).
      by apply elem_of_nil in He.
    + unfold utils.allowedTypes in He.
      repeat (apply elem_of_cons in He as [-> | He]; [reflexivity |]).
      by apply elem_of_nil in He.
  - intros He. exists (filepath.Ext filename). split; [by apply list_elem_of_In |].
    apply HasSuffix_append, Ext_suffix.
Qed.

(** ** Analytics *)

Lemma wrap64_small (z : Z) : - 2 ^ 63 ≤ z < 2 ^ 63 -> wrap64 z = z.
Proof.
  intros Hz. unfold wrap64.
  rewrite Z.mod_small by lia. lia.
Qed.

Lemma occurrences_le (k : string) (keys : list string) :
  0 ≤ more.occurrences k keys ≤ Z.of_nat (length keys).
Proof.
  unfold more.occurrences. pose proof (length_filter (fun x => x = k) keys). lia.
Qed.

Lemma occurrences_snoc (k x : string) (keys : list string) :
  more.occurrences k (keys ++ [x])
  = more.occurrences k keys + (if decide (x = k) then 1 else 0).
Proof.
  unfold more.occurrences. rewrite filter_app, length_app.
  case_decide.
  - rewrite filter_cons_True by done. cbn. lia.
  - rewrite filter_cons_False by done. cbn. lia.
Qed.

Lemma incr_all_snoc (keys : list string) (x : string) (m : gmap string Z) :
  analytics.incr_all (keys ++ [x]) m = analytics.incr x (analytics.incr_all keys m).
Proof. unfold analytics.incr_all. by rewrite foldl_app. Qed.

(** The count a tally holds for a key, and the keys it holds. *)
Lemma incr_all_count (keys : list string) (k : string) :
  Z.of_nat (length keys) < 2 ^ 63 ->
  default 0 (analytics.incr_all keys ∅ !! k) = more.occurrences k keys
  ∧ (analytics.incr_all keys ∅ !! k = None <-> k ∉ keys).
Proof.
  induction keys as [| x keys IH] using rev_ind; intros Hlen.
  { split; [reflexivity |]. split; [intros _; apply not_elem_of_nil | done]. }
  rewrite length_app in Hlen. cbn in Hlen.
  destruct (IH ltac:(lia)) as [Hcount Hkeys].
  rewrite incr_all_snoc, occurrences_snoc. unfold analytics.incr.
  destruct (decide (x = k)) as [-> | Hne].
  - rewrite lookup_insert_eq. cbn [default]. rewrite Hcount. split.
    + pose proof (occurrences_le k keys). apply wrap64_small. lia.
    + split; [discriminate |]. intros Hno. destruct Hno.
      apply elem_of_app. right. by apply list_elem_of_singleton.
  - rewrite lookup_insert_ne by done. split; [lia |].
    rewrite Hkeys, not_elem_of_app, not_elem_of_cons. split.
    + intros Hno. split; [done |]. split; [congruence | apply not_elem_of_nil].
    + by intros [Hno _].
Qed.

Lemma total_insert (m : gmap string Z) (k : string) (v : Z) :
  more.total (<[k := v]> m) = more.total m - default 0 (m !! k) + v.
Proof.
  unfold more.total.
  destruct (m !! k) as [w |] eqn:Hk.
  - rewrite <- (insert_delete_id m k w) at 2 by done.
    rewrite <- insert_delete_eq.
    rewrite !map_fold_insert_L; [cbn; lia | intros; lia | apply lookup_delete_eq
                                | intros; lia | apply lookup_delete_eq].
  - rewrite map_fold_insert_L; [cbn; lia | intros; lia | done].
Qed.

Lemma incr_all_total (keys : list string) :
  Z.of_nat (length keys) < 2 ^ 63 ->
  more.total (analytics.incr_all keys ∅) = Z.of_nat (length keys).
Proof.
  induction keys as [| x keys IH] using rev_ind; intros Hlen.
  { reflexivity. }
  rewrite length_app in Hlen |- *. cbn in Hlen |- *.
  rewrite incr_all_snoc. unfold analytics.incr.
  rewrite total_insert, IH by lia.
  destruct (incr_all_count keys x ltac:(lia)) as [-> _].
  pose proof (occurrences_le x keys). rewrite wrap64_small by lia. lia.
Qed.

Lemma incr_all_app (a b : list string) (m : gmap string Z) :
  analytics.incr_all (a ++ b) m = analytics.incr_all b (analytics.incr_all a m).
Proof. unfold analytics.incr_all. by rewrite foldl_app. Qed.

Lemma tally_counts (docs : list Doc) (d : analytics.Distribution) :
  let subs := Submission_DataTo <$> docs in
  analytics.statusCounts (foldl analytics.tally d docs)
  = analytics.incr_all (Status <$> subs) (analytics.statusCounts d)
  ∧ analytics.stageCounts (foldl analytics.tally d docs)
    = analytics.incr_all (GrowthStage <$> subs) (analytics.stageCounts d)
  ∧ analytics.conditionCounts (foldl analytics.tally d docs)
    = analytics.incr_all (concat (PlantConditions <$> subs)) (analytics.conditionCounts d).
Proof.
  revert d. induction docs as [| doc docs IH]; intros d; [done |].
  destruct (IH (analytics.tally d doc)) as (Hstatus & Hstage & Hconds).
  cbn [foldl fmap list_fmap concat]. rewrite incr_all_app.
  split; [exact Hstatus |]. split; [exact Hstage | exact Hconds].
Qed.



Lemma incr_count (k x : string) (m : gmap string Z) (keys : list string) :
  Z.of_nat (length keys) < 2 ^ 63 - 1 ->
  (∀ k, default 0 (m !! k) = more.occurrences k keys) ->
  default 0 (analytics.incr x m !! k) = more.occurrences k (keys ++ [x]).
Proof.
  intros Hlen Hm. rewrite occurrences_snoc. unfold analytics.incr.
  destruct (decide (x = k)) as [-> | Hne].
  - rewrite lookup_insert_eq. cbn [default]. rewrite Hm.
    pose proof (occurrences_le k keys). apply wrap64_small. lia.
  - rewrite lookup_insert_ne by done. rewrite Hm. lia.
Qed.

Lemma visit_entries (docs : list Doc) (f : string) :
  Z.of_nat (length docs) < 2 ^ 63 ->
  match foldl analytics.visit ∅ docs !! f with
  | None => filter (fun s => FieldID s = f) (Submission_DataTo <$> docs) = []
  | Some e => more.describes e (filter (fun s => FieldID s = f) (Submission_DataTo <$> docs))
  end.
Proof.
  revert f. induction docs as [| doc docs IH] using rev_ind; intros f Hlen.
  { reflexivity. }
  rewrite length_app in Hlen. cbn in Hlen.
  rewrite foldl_app, fmap_app, filter_app. cbn [foldl fmap list_fmap].
  set (m := foldl analytics.visit ∅ docs) in *. unfold analytics.visit.
  set (s := Submission_DataTo doc).
  destruct (decide (FieldID s = f)) as [<- | Hf].
  2:{ rewrite filter_cons_False, filter_nil, app_nil_r, lookup_insert_ne by done.
      apply IH. lia. }
  rewrite filter_cons_True, filter_nil, lookup_insert_eq by done.
  specialize (IH (FieldID s) ltac:(lia)).
  set (lf := filter (fun s0 => FieldID s0 = FieldID s) (Submission_DataTo <$> docs)) in *.
  assert (Hshort : (length lf ≤ length docs)%nat).
  { subst lf. etransitivity; [apply length_filter |]. by rewrite length_fmap. }
  destruct (m !! FieldID s) as [e |].
  - destruct IH as (Hsome & Hcount & Hstages & Hle & s0 & Hs0 & Hlatest).
    unfold more.describes. cbv beta iota zeta.
    cbn [analytics.submission_count analytics.stages analytics.latest_date].
    split; [by destruct lf |].
    split.
    { rewrite Hcount, length_app. cbn. rewrite wrap64_small by lia. lia. }
    split.
    { intros k. rewrite fmap_app. cbn [fmap list_fmap].
      apply incr_count; [rewrite length_fmap; lia | exact Hstages]. }
    unfold time.After. split.
    + intros s1 [Hin | ->%list_elem_of_singleton]%elem_of_app.
      * specialize (Hle s1 Hin). case_bool_decide; lia.
      * case_bool_decide; lia.
    + case_bool_decide.
      * exists s. split; [| done]. apply elem_of_app. right. by apply list_elem_of_singleton.
      * exists s0. split; [| done]. apply elem_of_app. by left.
  - rewrite IH. unfold more.describes. cbv beta iota zeta.
    cbn [analytics.submission_count analytics.stages analytics.latest_date app].
    split; [done |]. split; [by rewrite wrap64_small by lia |].
    split.
    { intros k. apply (incr_count k (GrowthStage s) ∅ []); [cbn; lia |].
      intros k'. by rewrite lookup_empty. }
    unfold time.After. split.
    + intros s1 ->%list_elem_of_singleton. case_bool_decide; lia.
    + exists s. split; [by apply list_elem_of_singleton |]. by case_bool_decide.
Qed.



(** ** Order and size of a page *)

Lemma descending_newest_first (l : list time.Time) :
  more.descending l -> more.newest_first l.
Proof.
  induction l as [| x l IH]; intros Hl i j a b Hi Hj Hij.
  { by rewrite lookup_nil in Hi. }
  destruct Hl as [Hx Hl]. destruct j as [| j]; [lia |]. cbn in Hj.
  destruct i as [| i].
  - injection Hi as <-. apply Hx. by eapply list_elem_of_lookup_2.
  - cbn in Hi. apply (IH Hl i j); [done | done | lia].
Qed.

Lemma descending_drop (n : nat) (l : list time.Time) :
  more.descending l -> more.descending (drop n l).
Proof.
  revert l. induction n as [| n IH]; intros [| x l] Hl; try done.
  apply IH, Hl.
Qed.

Lemma descending_take (n : nat) (l : list time.Time) :
  more.descending l -> more.descending (take n l).
Proof.
  revert l. induction n as [| n IH]; intros [| x l] Hl; try done.
  destruct Hl as [Hx Hl]. split; [| by apply IH].
  intros y Hy. apply Hx. by eapply (subseteq_take n).
Qed.

Lemma insert_desc_descending (x : time.Time * Doc) (l : list (time.Time * Doc)) :
  more.descending l.*1 -> more.descending (insert_desc x l).*1.
Proof.
  induction l as [| y l IH]; intros Hl.
  { split; [| done]. intros z Hz. by apply elem_of_nil in Hz. }
  destruct Hl as [Hy Hl]. cbn [insert_desc]. case_decide as Hlt.
  - split; [| by split].
    intros z [-> | Hz]%elem_of_cons; [lia |]. specialize (Hy z Hz). lia.
  - split; [| by apply IH].
    intros z ([t d] & -> & [-> | Hin]%insert_desc_elem)%list_elem_of_fmap; [cbn; lia |].
    apply Hy, list_elem_of_fmap. by exists (t, d).
Qed.

Lemma sort_desc_descending (l : list (time.Time * Doc)) :
  more.descending (sort_desc l).*1.
Proof.
  induction l as [| x l IH]; [done |]. by apply insert_desc_descending.
Qed.

(** The documents of an ordered query, read back, are in the order of
    their keys. *)
Lemma ordered_keys (path : string) (docs : list Doc) :
  (fun d => get_time d path) <$> ordered (Some path) docs
  = (sort_desc (omap (fun d => (fun t => (t, d)) <$> time_field path d) docs)).*1.
Proof.
  unfold ordered. rewrite <- list_fmap_compose.
  apply list_fmap_ext. intros i [t d] Hin%list_elem_of_lookup_2.
  apply sort_desc_elem, list_elem_of_omap in Hin as (d0 & _ & Hsome).
  unfold time_field in Hsome. cbn. unfold get_time.
  destruct (d0 !! path) as [[] |] eqn:Hd0; try discriminate.
  injection Hsome as <- <-. by rewrite Hd0.
Qed.

Lemma GetAll_newest_first (q : firestore.Query) (path : string) :
  order_desc q = Some path ->
  more.newest_first ((fun d => get_time d path) <$> GetAll q).
Proof.
  intros Horder. apply descending_newest_first. unfold GetAll. rewrite Horder.
  destruct (limit q) as [n |].
  - rewrite fmap_take, fmap_drop, ordered_keys.
    apply descending_take, descending_drop, sort_desc_descending.
  - rewrite fmap_drop, ordered_keys. apply descending_drop, sort_desc_descending.
Qed.

Lemma GetAll_limit (q : firestore.Query) (n : Z) :
  limit q = Some n -> 0 ≤ n -> Z.of_nat (length (GetAll q)) ≤ n.
Proof.
  intros Hlimit Hn. unfold GetAll. rewrite Hlimit, length_take. lia.
Qed.

Lemma omap_shorter {A B : Type} (f : A -> option B) (l : list A) :
  (length (omap f l) ≤ length l)%nat.
Proof.
  induction l as [| x l IH]; [done |]. cbn. destruct (f x); cbn; lia.
Qed.



(** ** The dashboard *)

Lemma count_status (docs : list Doc) (n : analytics.Counters) :
  let subs := Submission_DataTo <$> docs in
  analytics.submissionsByStatus (foldl analytics.count n docs)
  = analytics.incr_all (Status <$> subs) (analytics.submissionsByStatus n)
  ∧ analytics.submissionsByStage (foldl analytics.count n docs)
    = analytics.incr_all (GrowthStage <$> subs) (analytics.submissionsByStage n).
Proof.
  revert n. induction docs as [| doc docs IH]; intros n; [done |].
  apply (IH (analytics.count n doc)).
Qed.

Lemma count_total (docs : list Doc) (n : analytics.Counters) :
  analytics.totalSubmissions n = 0 ->
  Z.of_nat (length docs) < 2 ^ 63 ->
  analytics.totalSubmissions (foldl analytics.count n docs) = Z.of_nat (length docs).
Proof.
  intros Hn. induction docs as [| doc docs IH] using rev_ind; intros Hlen; [done |].
  rewrite length_app in Hlen |- *. cbn in Hlen |- *.
  rewrite foldl_app. cbn [foldl analytics.count analytics.totalSubmissions].
  rewrite IH by lia. rewrite wrap64_small by lia. lia.
Qed.

Lemma dashboard_query (fs : FirestoreService) (caller : User) :
  GetAll (if decide (User_Role caller ≠ "admin")
          then Where (CollectionQuery (Submissions fs)) "user_id" (User_ID caller)
          else CollectionQuery (Submissions fs))
  = more.visible fs caller.
Proof.
  unfold more.visible. case_decide as Hrole.
  - rewrite GetAll_where. apply list_filter_iff. intros d.
    unfold matches. cbn [forallb]. rewrite andb_true_r. split; [by right |].
    by intros [? | ?].
  - rewrite GetAll_collection. rewrite <- (filter_no_wheres _) at 1.
    apply list_filter_iff. intros d. split; [| done].
    intros _. left. by destruct (decide (User_Role caller = "admin")).
Qed.



(** ** Deleting a field *)



(** ** The refresh token at the gate *)

Lemma refresh_token_valid `{L : jwt.Library} (jwtSecret : string) (user : User)
    (t3 t4 now : time.Time) :
  let claims := utils.refreshClaims user t3 t4 in
  let token := {| jwt.Method := jwt.SigningMethodHS256; jwt.TokenClaims := claims;
                  jwt.Signature := jwt.Sign jwt.SigningMethodHS256 jwtSecret claims |} in
  jwt.Decode (jwt.Encode token) = Some token ->
  t4 ≤ now ->
  now < time.Truncate (t3 + 7 * 24 * time.Hour) time.Second ->
  utils.ValidateToken jwtSecret (jwt.Encode token) now = inl claims.
Proof.
  intros claims token Hdec Hiat Hexp.
  rewrite (ValidateToken_decoded _ _ token) by done. cbn [jwt.is_HMAC jwt.Method token].
  unfold jwt.Valid. cbn [jwt.TokenClaims jwt.Signature token Registered claims
                           utils.refreshClaims ExpiresAt IssuedAt jwt.NewNumericDate].
  unfold time.Before, time.After, time.Equal.
  replace (time.Add t3 (time.Hour * 24 * 7)) with (t3 + 7 * 24 * time.Hour)
    by (unfold time.Add; lia).
  rewrite bool_decide_eq_true_2 by done.
  rewrite (bool_decide_eq_true_2 (jwt.Sign _ _ _ = _)) by done.
  pose proof (Truncate_le t4).
  destruct (decide (time.Truncate t4 time.Second < now)).
  - by rewrite bool_decide_eq_true_2 by done.
  - rewrite bool_decide_eq_false_2 by done.
    by rewrite bool_decide_eq_true_2 by lia.
Qed.



(** ** From the login to the gate *)

(** A login whose assertion verifies, on a store whose user documents sit
    under their own ids: the answer, the tokens and the store it leaves. *)
Lemma GoogleLogin_run `{L : jwt.Library} `{V : idtoken.Validator}
    (jwtSecret clientID : string) (fs : FirestoreService) (env : auth.LoginEnv)
    (c : Context) (body payload : gmap string Any) (token : string) :
  JSONBody c = Some body ->
  part_002.required_string body "token" = Some token ->
  idtoken.Validate token clientID = Some payload ->
  spec.users_well_formed fs ->
  ∃ user doc,
    User_DataTo doc = user
    ∧ auth.GoogleLogin jwtSecret clientID fs env c
      = Responded
          (JSON 200
             (AuthBody
                {| Auth_User := auth.with_LastLoginAt user (auth.t_last_login env);
                   AccessToken :=
                     jwt.Encode
                       {| jwt.Method := jwt.SigningMethodHS256;
                          jwt.TokenClaims :=
                            utils.accessClaims user (auth.t_access_exp env)
                                               (auth.t_access_iat env);
                          jwt.Signature :=
                            jwt.Sign jwt.SigningMethodHS256 jwtSecret
                              (utils.accessClaims user (auth.t_access_exp env)
                                                  (auth.t_access_iat env)) |};
                   RefreshToken :=
                     jwt.Encode
                       {| jwt.Method := jwt.SigningMethodHS256;
                          jwt.TokenClaims :=
                            utils.refreshClaims user (auth.t_refresh_exp env)
                                                (auth.t_refresh_iat env);
                          jwt.Signature :=
                            jwt.Sign jwt.SigningMethodHS256 jwtSecret
                              (utils.refreshClaims user (auth.t_refresh_exp env)
                                                   (auth.t_refresh_iat env)) |};
                   ExpiresIn := 3600 |}))
          (with_Users fs
             (<[User_ID user := <["last_login_at" := VTime (auth.t_stamp env)]> doc]>
                (Users fs))).
Proof.
  intros Hbody Htoken Hvalid Hwf.
  unfold auth.GoogleLogin. rewrite Hbody. cbn [mbind option_bind]. rewrite Htoken, Hvalid.
  set (info := {| Info_Email := get_string payload "email";
                  Info_Name := get_string payload "name";
                  Info_Picture := get_string payload "picture" |}).
  destruct (auth.usersByEmail fs (Info_Email info)) as [| found rest] eqn:Hfound.
  - rewrite (getOrCreateUser_absent fs info env Hfound).
    set (user := spec.first_login_user _ _ _ _ _).
    cbn [utils.GenerateTokens jwt.SignedString].
    cbn [auth.with_LastLoginAt User_ID].
    change (User_ID user) with (auth.new_id env).
    rewrite (updateUserLastLogin_stored _ _ _ (User_doc user))
      by apply lookup_insert_eq.
    exists user, (User_doc user). split; [apply User_DataTo_doc |].
    cbn [Users with_Users]. rewrite insert_insert_eq. reflexivity.
  - rewrite (getOrCreateUser_existing fs info env found rest Hfound).
    destruct (usersByEmail_stored fs (Info_Email info) found) as [[k Hk] Hemail].
    { rewrite Hfound. apply list_elem_of_here. }
    pose proof (Hwf k found Hk) as Hid. cbn beta in Hid.
    cbn [utils.GenerateTokens jwt.SignedString].
    cbn [auth.with_LastLoginAt User_ID].
    change (get_string found "id") with (User_ID (User_DataTo found)).
    rewrite Hid. rewrite (updateUserLastLogin_stored _ _ _ found Hk).
    exists (User_DataTo found), found. split; [reflexivity |].
    by rewrite Hid.
Qed.


